(** * xlsx-to-pdf: the /convert request pipeline of [index.js]

    A shallow embedding of the conversion service.  JavaScript strings are
    sequences of UTF-16 code units, buffers are byte lists, numbers that the
    handler computes with are integers.  The collaborators the handler calls
    (ExcelJS load/write, node-fetch, the memory probe) are oracles of a
    [World] record; the handler itself is written in a small state-and-
    exception monad that records every call it makes. *)

From Stdlib Require Import ZArith NArith List Bool String Ascii Lia.
From Stdlib.Strings Require Import Byte.
Import ListNotations.

Local Open Scope Z_scope.

(* ================================================================== *)
(** ** JavaScript strings *)

Module Js.

(** A string is the list of its UTF-16 code units. *)
Definition code_unit := N.
Definition jsstring := list code_unit.

Definition str (s : string) : jsstring :=
  List.map N_of_ascii (list_ascii_of_string s).

Definition cu_eqb (a b : code_unit) : bool := N.eqb a b.

Fixpoint jsstring_eqb (a b : jsstring) : bool :=
  match a, b with
  | [], [] => true
  | x :: a', y :: b' => cu_eqb x y && jsstring_eqb a' b'
  | _, _ => false
  end.

Definition in_range (lo hi c : N) : bool := (N.leb lo c && N.leb c hi)%N.

(** WhiteSpace and LineTerminator code units, which [parseInt] skips. *)
Definition isWhiteSpace (c : code_unit) : bool :=
  in_range 9 13 c || N.eqb c 32 || N.eqb c 160 || N.eqb c 5760
  || in_range 8192 8202 c || N.eqb c 8232 || N.eqb c 8233
  || N.eqb c 8239 || N.eqb c 8287 || N.eqb c 12288 || N.eqb c 65279.

Fixpoint trimStart (s : jsstring) : jsstring :=
  match s with
  | c :: r => if isWhiteSpace c then trimStart r else s
  | [] => []
  end.

(** Value of a digit in the given radix, when the code unit is one. *)
Definition digitValue (radix : Z) (c : code_unit) : option Z :=
  let v :=
    if in_range 48 57 c then Some (Z.of_N c - 48)
    else if in_range 97 122 c then Some (Z.of_N c - 97 + 10)
    else if in_range 65 90 c then Some (Z.of_N c - 65 + 10)
    else None in
  match v with
  | Some d => if d <? radix then Some d else None
  | None => None
  end.

(** Longest prefix of digits, accumulated most significant first.
    [seen] tells whether at least one digit was read. *)
Fixpoint readDigits (radix : Z) (s : jsstring) (acc : Z) (seen : bool)
  : option Z :=
  match s with
  | c :: r =>
      match digitValue radix c with
      | Some d => readDigits radix r (acc * radix + d) true
      | None => if seen then Some acc else None
      end
  | [] => if seen then Some acc else None
  end.

(** [parseInt(x)] with no radix argument.  [None] in the argument is
    [undefined] (converted to the string "undefined"); [None] in the result
    is NaN.  The result is the mathematical integer the digits denote.  The
    JavaScript value is the double nearest to it: the same number up to
    2^53 in magnitude, and beyond that a rounded one (or Infinity) that is
    still nonzero, of the same sign and on the same side of every smaller
    integer.  What is proved from the exact value of a result therefore
    carries the bound 2^53; what only compares it with small integers, as
    the font size clamp does, does not need it. *)
Definition parseInt (x : option jsstring) : option Z :=
  let s := match x with Some s => s | None => str "undefined" end in
  let s := trimStart s in
  let '(sign, s) :=
    match s with
    | 45%N :: r => (-1, r)
    | 43%N :: r => (1, r)
    | _ => (1, s)
    end in
  let '(radix, s) :=
    match s with
    | 48%N :: 120%N :: r => (16, r)
    | 48%N :: 88%N :: r => (16, r)
    | _ => (10, s)
    end in
  match readDigits radix s 0 false with
  | Some n => Some (sign * n)
  | None => None
  end.

(** [a || b] on numbers: [a] when it is neither NaN nor zero. *)
Definition num_or (a : option Z) (b : Z) : Z :=
  match a with
  | Some n => if n =? 0 then b else n
  | None => b
  end.

(** [a || b] on strings: [a] when it is present and not empty. *)
Definition str_or (a : option jsstring) (b : jsstring) : jsstring :=
  match a with
  | Some [] | None => b
  | Some s => s
  end.

End Js.

Import Js.

(* ================================================================== *)
(** ** Configuration *)

Record Config := {
  defaultFontSize : Z;
  memoryLimitMB : Z;
  concurrencyLimit : Z;
}.

(** [parseInt(process.env.X) || fallback] *)
Definition envInt (v : option jsstring) (fallback : Z) : Z :=
  num_or (parseInt v) fallback.

Record Environ := {
  DEFAULT_FONT_SIZE : option jsstring;
  MEMORY_LIMIT_MB : option jsstring;
  CONCURRENCY_LIMIT : option jsstring;
}.

Definition config (e : Environ) : Config :=
  {| defaultFontSize := envInt (DEFAULT_FONT_SIZE e) 9;
     memoryLimitMB := envInt (MEMORY_LIMIT_MB e) 512;
     concurrencyLimit := envInt (CONCURRENCY_LIMIT e) 5 |}.

Definition emptyEnviron : Environ :=
  {| DEFAULT_FONT_SIZE := None; MEMORY_LIMIT_MB := None;
     CONCURRENCY_LIMIT := None |}.

(* ================================================================== *)
(** ** Input validation and file names *)

Definition XLSX_MAGIC : list byte := [x50; x4b; x03; x04].

Fixpoint bytes_equals (a b : list byte) : bool :=
  match a, b with
  | [], [] => true
  | x :: a', y :: b' => Byte.eqb x y && bytes_equals a' b'
  | _, _ => false
  end.

(** [None] is a null or undefined buffer. *)
Definition isValidXlsx (buffer : option (list byte)) : bool :=
  match buffer with
  | None => false
  | Some b =>
      if (List.length b <? 4)%nat then false
      else bytes_equals (firstn 4 b) XLSX_MAGIC
  end.

(** The class [[a-zA-Z0-9._-]]. *)
Definition isSafeChar (c : code_unit) : bool :=
  in_range 97 122 c || in_range 65 90 c || in_range 48 57 c
  || N.eqb c 46 || N.eqb c 95 || N.eqb c 45.

(** [name.replace(/[^a-zA-Z0-9._-]/g, "_")] *)
Definition sanitizeFilename (name : jsstring) : jsstring :=
  List.map (fun c => if isSafeChar c then c else 95%N) name.

(** Case folding of the regular expression flag [i] on the letters that
    occur in ".xlsx"; no code unit above 127 folds onto an ASCII letter. *)
Definition foldCase (c : code_unit) : code_unit :=
  if in_range 65 90 c then (c + 32)%N else c.

Definition isXlsxSuffix (s : jsstring) : bool :=
  jsstring_eqb (List.map foldCase s) (str ".xlsx").

(** [name.replace(/\.xlsx$/i, ".pdf")]: the pattern can only match the last
    five code units. *)
Definition replaceXlsxExt (name : jsstring) : jsstring :=
  let n := (List.length name - 5)%nat in
  if isXlsxSuffix (skipn n name) then firstn n name ++ str ".pdf" else name.

(** The name placed in Content-Disposition, from [req.file.originalname]. *)
Definition pdfName (originalname : option jsstring) : jsstring :=
  let originalName := str_or originalname (str "export.xlsx") in
  sanitizeFilename (replaceXlsxExt originalName).

(** [Math.min(Math.max(x, lo), hi)] *)
Definition minMax (x lo hi : Z) : Z := Z.min (Z.max x lo) hi.

(** The font size the handler derives from the [fontSize] form field. *)
Definition requestFontSize (cfg : Config) (field : option jsstring) : Z :=
  let rawFontSize := num_or (parseInt field) (defaultFontSize cfg) in
  minMax rawFontSize 6 72.

(** The file name of the sanitization test: evil, a double quote (code unit
    34), then a semicolon and a shell command ending in .xlsx. *)
Definition evilName : jsstring := str "evil" ++ 34%N :: str "; rm -rf /.xlsx".

(* ================================================================== *)
(** ** The workbook as ExcelJS presents it to the handler *)

(** A JavaScript number as far as the handler looks at it: whether it is
    falsy, and its [toString()] text.  The digits of a nonzero number come
    from the engine's number printing and are carried as data. *)
Inductive JsNumber :=
| NumZero
| NumNaN
| NumOther (shown : jsstring).

(** What [cell.value] can hold. *)
Inductive CellValue :=
| VNull
| VBool (b : bool)
| VNumber (x : JsNumber)
| VString (s : jsstring)
| VDate (shown : jsstring)
| VObject.

(** ToBoolean *)
Definition truthy (v : CellValue) : bool :=
  match v with
  | VNull => false
  | VBool b => b
  | VNumber NumZero | VNumber NumNaN => false
  | VNumber (NumOther _) => true
  | VString [] => false
  | VString (_ :: _) => true
  | VDate _ => true
  | VObject => true
  end.

(** [v.toString()]; there is none on null.  Formula, hyperlink, rich-text
    and error values are plain objects. *)
Definition toString (v : CellValue) : option jsstring :=
  match v with
  | VNull => None
  | VBool true => Some (str "true")
  | VBool false => Some (str "false")
  | VNumber NumZero => Some (str "0")
  | VNumber NumNaN => Some (str "NaN")
  | VNumber (NumOther shown) => Some shown
  | VString s => Some s
  | VDate shown => Some shown
  | VObject => Some (str "[object Object]")
  end.

Record Font := {
  size : option Z;
  fontRest : list (string * CellValue);
}.

Record Cell := {
  value : CellValue;
  font : option Font;
}.

(** [cells] are the cells [column.eachCell({ includeEmpty: false }, ...)]
    hands to its callback, in row order. *)
Record Column := {
  cells : list Cell;
  width : option Z;
}.

Record PageSetup := {
  orientation : option string;
  fitToPage : option bool;
  fitToWidth : option Z;
  fitToHeight : option Z;
  paperSize : option Z;
  setupRest : list (string * CellValue);
}.

(** [columns] is null on a sheet without any. *)
Record Worksheet := {
  columns : option (list Column);
  pageSetup : PageSetup;
}.

Definition Workbook := list Worksheet.

(* ================================================================== *)
(** ** Errors and results *)

Record JsError := {
  err_name : string;
  err_code : option string;
}.

Inductive Result (A : Type) :=
| Ok (a : A)
| Throw (e : JsError).

Arguments Ok {A} a.
Arguments Throw {A} e.

Definition TypeError : JsError :=
  {| err_name := "TypeError"; err_code := None |}.

(* ================================================================== *)
(** ** The formatting pass of the handler *)

Section Formatting.

Variable fontSize : Z.
Variable landscape : jsstring.

(** [cell.font = { ...cell.font, size: fontSize }] *)
Definition setFont (c : Cell) : Cell :=
  {| value := value c;
     font := Some {| size := Some fontSize;
                     fontRest := match font c with
                                 | Some f => fontRest f
                                 | None => []
                                 end |} |}.

(** [cell.value ? cell.value.toString() : ""] *)
Definition cellValue (c : Cell) : jsstring :=
  if truthy (value c) then
    match toString (value c) with Some s => s | None => [] end
  else [].

(** The [maxLength] accumulator after the callback has seen [cs]. *)
Definition maxLengthFrom (start : Z) (cs : list Cell) : Z :=
  fold_left (fun maxLength c =>
               Z.max maxLength (Z.of_nat (List.length (cellValue c))))
            cs start.

Definition formatColumn (column : Column) : Column :=
  let maxLength := maxLengthFrom 0 (cells column) in
  {| cells := List.map setFont (cells column);
     width := Some (minMax (maxLength + 2) 8 50) |}.

Definition formatPageSetup (p : PageSetup) : PageSetup :=
  {| orientation :=
       Some (if jsstring_eqb landscape (str "true")
             then "landscape"%string else "portrait"%string);
     fitToPage := Some true;
     fitToWidth := Some 1;
     fitToHeight := Some 0;
     paperSize := Some 9;
     setupRest := setupRest p |}.

(** The callback of [workbook.eachSheet]; [forEach] on null columns
    throws. *)
Definition formatSheet (worksheet : Worksheet) : Result Worksheet :=
  match columns worksheet with
  | None => Throw TypeError
  | Some cols =>
      Ok {| columns := Some (List.map formatColumn cols);
            pageSetup := formatPageSetup (pageSetup worksheet) |}
  end.

Fixpoint eachSheet (workbook : Workbook) : Result Workbook :=
  match workbook with
  | [] => Ok []
  | ws :: rest =>
      match formatSheet ws with
      | Throw e => Throw e
      | Ok ws' =>
          match eachSheet rest with
          | Throw e => Throw e
          | Ok rest' => Ok (ws' :: rest')
          end
      end
  end.

End Formatting.

(* ================================================================== *)
(** ** Requests, responses and the outside world *)

Record File := {
  buffer : option (list byte);
  originalname : option jsstring;
}.

(** [req.file] and the text fields of [req.body]. *)
Record Request := {
  file : option File;
  body_fontSize : option jsstring;
  body_landscape : option jsstring;
  body_singlePageSheets : option jsstring;
}.

Record Headers := {
  contentType : string;
  contentDisposition : jsstring;
  contentLength : nat;
}.

(** What the client gets as body: a JSON error object, the PDF with its
    headers, or nothing ([Empty]) when the status allows no body. *)
Inductive Body :=
| Json (error : string)
| Pdf (headers : Headers) (data : list byte)
| Empty.

Record Response := {
  status : Z;
  body : Body;
}.

(** The multipart form posted to the renderer. *)
Record RenderForm := {
  files : list byte;
  files_filename : string;
  files_contentType : string;
  form_landscape : jsstring;
  form_singlePageSheets : jsstring;
}.

(** What [fetch] resolves to: the two fields the handler reads, and what
    reading the body ([text()] or [buffer()]) gives. *)
Record FetchResponse := {
  ok : bool;
  resp_status : Z;
  resp_body : Result (list byte);
}.

(** The collaborators, as the handler observes them during one request.  A
    [fetch] cut short by the abort timer rejects with an AbortError. *)
Record World := {
  rss : Z;
  xlsx_load : option (list byte) -> Result Workbook;
  xlsx_writeBuffer : Workbook -> Result (list byte);
  fetch : RenderForm -> Result FetchResponse;
}.

(** [Math.round(process.memoryUsage().rss / 1024 / 1024)] *)
Definition getMemoryUsageMB (w : World) : Z := (rss w + 524288) / 1048576.

(* ================================================================== *)
(** ** A monad for the handler: call log, response slot, exceptions *)

Inductive Call :=
| CGetMemoryUsage
| CFilePresent
| CIsValidXlsx
| CLimitEnter
| CLimitExit
| CLoad
| CEachSheet
| CWriteBuffer
| CSetTimeout
| CFetch (form : RenderForm)
| CReadText
| CReadBuffer
| CClearTimeout
| CSend.

Record State := {
  trace : list Call;
  sent : option Response;
}.

Definition M (A : Type) := State -> Result A * State.

Definition ret {A} (a : A) : M A := fun st => (Ok a, st).

Definition bind {A B} (m : M A) (k : A -> M B) : M B :=
  fun st =>
    match m st with
    | (Ok a, st') => k a st'
    | (Throw e, st') => (Throw e, st')
    end.

Notation "x <- m ;; k" := (bind m (fun x => k))
  (at level 61, m at next level, right associativity).
Notation "m ;; k" := (bind m (fun _ => k))
  (at level 61, right associativity).

Definition log (c : Call) : M unit :=
  fun st => (Ok tt, {| trace := trace st ++ [c]; sent := sent st |}).

(** Log a call to a collaborator and deliver its outcome. *)
Definition call {A} (c : Call) (r : Result A) : M A :=
  log c ;; (fun st => (r, st)).

Definition try_catch {A} (m : M A) (handler : JsError -> M A) : M A :=
  fun st =>
    match m st with
    | (Ok a, st') => (Ok a, st')
    | (Throw e, st') => handler e st'
    end.

Definition try_finally {A} (m : M A) (cleanup : M unit) : M A :=
  fun st =>
    match m st with
    | (r, st') =>
        match cleanup st' with
        | (Ok _, st'') => (r, st'')
        | (Throw e, st'') => (Throw e, st'')
        end
    end.

Definition headersSent : M bool :=
  fun st => (Ok (match sent st with Some _ => true | None => false end), st).

(** Writing a response to the client: the first one is the one the client
    gets; a second attempt throws. *)
Definition send (r : Response) : M unit :=
  fun st =>
    match sent st with
    | None => (Ok tt, {| trace := trace st ++ [CSend]; sent := Some r |})
    | Some _ =>
        (Throw {| err_name := "Error";
                  err_code := Some "ERR_HTTP_HEADERS_SENT"%string |}, st)
    end.

Definition throw {A} (e : JsError) : M A := fun st => (Throw e, st).

(** Node writes a response head only for a status from 100 to 999, and
    throws a RangeError for any other. *)
Definition sendable (s : Z) : bool := (100 <=? s) && (s <=? 999).

Definition invalidStatus : JsError :=
  {| err_name := "RangeError";
     err_code := Some "ERR_HTTP_INVALID_STATUS_CODE"%string |}.

(** The statuses that go out without a body: Express empties the body of a
    204, 205 or 304 response, and Node writes none for 1xx, 204 and 304. *)
Definition bodyless (s : Z) : bool :=
  ((100 <=? s) && (s <=? 199)) || (s =? 204) || (s =? 205) || (s =? 304).

(** What [res.status(s).json({ error })] gives the client for a status that
    can be sent. *)
Definition jsonResponse (s : Z) (error : string) : Response :=
  {| status := s; body := if bodyless s then Empty else Json error |}.

(** [res.status(s).json({ error })] *)
Definition json (s : Z) (error : string) : M unit :=
  if sendable s then send (jsonResponse s error) else throw invalidStatus.

(** [limit(task)] seen from one request: the task runs once a slot is
    granted, and the slot is given back whether it returns or throws. *)
Definition limit {A} (task : M A) : M A :=
  log CLimitEnter ;; try_finally task (log CLimitExit).

(* ================================================================== *)
(** ** The /convert handler *)

Inductive TaskResult :=
| TaskError (statusCode : Z) (message : string)
| TaskData (data : list byte).

(** The headers given to [res.set] and the body given to [res.send]; the
    file name goes between double quotes (code unit 34). *)
Definition pdfResponse (pdfName : jsstring) (data : list byte) : Response :=
  {| status := 200;
     body := Pdf {| contentType := "application/pdf";
                    contentDisposition :=
                      str "attachment; filename=" ++ 34%N :: pdfName ++ [34%N];
                    contentLength := List.length data |}
                 data |}.

Section Handler.

Variable cfg : Config.
Variable w : World.

(** The function passed to [limit]. *)
Definition convertTask (f : File) (fontSize : Z)
           (landscape singlePageSheets : jsstring) : M TaskResult :=
  workbook <- call CLoad (xlsx_load w (buffer f)) ;;
  formatted <- call CEachSheet (eachSheet fontSize landscape workbook) ;;
  modifiedBuffer <- call CWriteBuffer (xlsx_writeBuffer w formatted) ;;
  log CSetTimeout ;;
  try_finally
    (let form :=
       {| files := modifiedBuffer;
          files_filename := "export.xlsx";
          files_contentType :=
            "application/vnd.openxmlformats-officedocument.spreadsheetml.sheet";
          form_landscape := landscape;
          form_singlePageSheets := singlePageSheets |} in
     gotenbergRes <- call (CFetch form) (fetch w form) ;;
     if negb (ok gotenbergRes) then
       errText <- call CReadText (resp_body gotenbergRes) ;;
       let statusCode :=
         if resp_status gotenbergRes >=? 500 then 502
         else resp_status gotenbergRes in
       ret (TaskError statusCode "PDF conversion failed")
     else
       pdf <- call CReadBuffer (resp_body gotenbergRes) ;;
       ret (TaskData pdf))
    (log CClearTimeout).

Definition onError (err : JsError) : M unit :=
  if String.eqb (err_name err) "AbortError" then
    json 504 "PDF conversion timed out"
  else if match err_code err with
          | Some c => String.eqb c "LIMIT_FILE_SIZE"
          | None => false
          end then
    json 413 "File too large"
  else
    already <- headersSent ;;
    if already then ret tt else json 500 "Internal server error".

Definition convert (req : Request) : M unit :=
  try_catch
    (log CGetMemoryUsage ;;
     let currentMemory := getMemoryUsageMB w in
     if currentMemory >? memoryLimitMB cfg then
       json 503 "Server is under heavy load, please try again later"
     else
       log CFilePresent ;;
       match file req with
       | None => json 400 "No file uploaded"
       | Some f =>
           log CIsValidXlsx ;;
           if negb (isValidXlsx (buffer f)) then
             json 400 "Invalid file type. Only .xlsx files are accepted"
           else
             let fontSize := requestFontSize cfg (body_fontSize req) in
             let landscape := str_or (body_landscape req) (str "true") in
             let singlePageSheets :=
               str_or (body_singlePageSheets req) (str "true") in
             pdfBuffer <-
               limit (convertTask f fontSize landscape singlePageSheets) ;;
             match pdfBuffer with
             | TaskError statusCode message => json statusCode message
             | TaskData data =>
                 send (pdfResponse (pdfName (originalname f)) data)
             end
       end)
    onError.

Definition initial : State := {| trace := []; sent := None |}.

(** The state in which the handler leaves one request. *)
Definition run (req : Request) : State := snd (convert req initial).

Definition response (req : Request) : option Response := sent (run req).

Definition calls (req : Request) : list Call := trace (run req).

End Handler.

(* ================================================================== *)
(** ** Pipeline stages *)

Inductive Stage :=
| InputValidator
| AdmissionGuard
| DocumentTransformer
| RenderDispatcher
| ResponseComposer.

(** The stage a call of the handler belongs to; taking and returning a
    limiter slot belongs to none of the five. *)
Definition stage_of (c : Call) : option Stage :=
  match c with
  | CGetMemoryUsage => Some AdmissionGuard
  | CFilePresent | CIsValidXlsx => Some InputValidator
  | CLoad | CEachSheet | CWriteBuffer => Some DocumentTransformer
  | CSetTimeout | CFetch _ | CReadText | CReadBuffer | CClearTimeout =>
      Some RenderDispatcher
  | CSend => Some ResponseComposer
  | CLimitEnter | CLimitExit => None
  end.

Fixpoint stages_of (cs : list Call) : list Stage :=
  match cs with
  | [] => []
  | c :: r =>
      match stage_of c with
      | Some s => s :: stages_of r
      | None => stages_of r
      end
  end.

(** The stages one request goes through, in the order they run. *)
Definition stages (cfg : Config) (w : World) (req : Request) : list Stage :=
  stages_of (calls cfg w req).

Definition Stage_eqb (a b : Stage) : bool :=
  match a, b with
  | InputValidator, InputValidator
  | AdmissionGuard, AdmissionGuard
  | DocumentTransformer, DocumentTransformer
  | RenderDispatcher, RenderDispatcher
  | ResponseComposer, ResponseComposer => true
  | _, _ => false
  end.

Definition invoked (s : Stage) (ss : list Stage) : bool :=
  existsb (Stage_eqb s) ss.

(** The order of the stages as the specification lists them. *)
Definition listedRank (s : Stage) : nat :=
  match s with
  | InputValidator => 0
  | AdmissionGuard => 1
  | DocumentTransformer => 2
  | RenderDispatcher => 3
  | ResponseComposer => 4
  end.

(** The order of the stages in the body of the handler. *)
Definition handlerRank (s : Stage) : nat :=
  match s with
  | AdmissionGuard => 0
  | InputValidator => 1
  | DocumentTransformer => 2
  | RenderDispatcher => 3
  | ResponseComposer => 4
  end.

(** No stage of higher rank runs before one of lower rank. *)
Fixpoint inOrder (rank : Stage -> nat) (ss : list Stage) : bool :=
  match ss with
  | [] => true
  | s :: r => forallb (fun t => (rank s <=? rank t)%nat) r && inOrder rank r
  end.

(** Whether every transformer and dispatcher call of a log happens while the
    request holds a limiter slot, and the slot is returned at the end.
    [held] says whether the slot is held before the first call. *)
Fixpoint insideLimiter (held : bool) (cs : list Call) : bool :=
  match cs with
  | [] => negb held
  | CLimitEnter :: r => negb held && insideLimiter true r
  | CLimitExit :: r => held && insideLimiter false r
  | c :: r =>
      match stage_of c with
      | Some DocumentTransformer | Some RenderDispatcher =>
          held && insideLimiter held r
      | _ => insideLimiter held r
      end
  end.

(* ================================================================== *)
(** ** The responses of the early exits *)

Definition overloaded (cfg : Config) (w : World) : bool :=
  getMemoryUsageMB w >? memoryLimitMB cfg.

Definition rejectOverload : Response :=
  {| status := 503;
     body := Json "Server is under heavy load, please try again later" |}.

Definition rejectNoFile : Response :=
  {| status := 400; body := Json "No file uploaded" |}.

Definition rejectInvalid : Response :=
  {| status := 400;
     body := Json "Invalid file type. Only .xlsx files are accepted" |}.

(* ================================================================== *)
(** ** Every run of the handler, case by case *)

(** What the [catch] block answers for a thrown error. *)
Definition errorResponse (err : JsError) : Response :=
  if String.eqb (err_name err) "AbortError" then
    {| status := 504; body := Json "PDF conversion timed out" |}
  else if match err_code err with
          | Some c => String.eqb c "LIMIT_FILE_SIZE"
          | None => false
          end then
    {| status := 413; body := Json "File too large" |}
  else
    {| status := 500; body := Json "Internal server error" |}.

(** The status the handler gives a renderer error. *)
Definition upstreamStatus (r : FetchResponse) : Z :=
  if resp_status r >=? 500 then 502 else resp_status r.

Definition upToLimit : list Call :=
  [CGetMemoryUsage; CFilePresent; CIsValidXlsx; CLimitEnter].

Definition leave : list Call := [CClearTimeout; CLimitExit; CSend].

Section Outcomes.

Variable cfg : Config.
Variable w : World.
Variable req : Request.

(** The form the handler would post for workbook bytes [b]. *)
Definition formFor (b : list byte) : RenderForm :=
  {| files := b;
     files_filename := "export.xlsx";
     files_contentType :=
       "application/vnd.openxmlformats-officedocument.spreadsheetml.sheet";
     form_landscape := str_or (body_landscape req) (str "true");
     form_singlePageSheets :=
       str_or (body_singlePageSheets req) (str "true") |}.

Definition formatted (wb : Workbook) : Result Workbook :=
  eachSheet (requestFontSize cfg (body_fontSize req))
            (str_or (body_landscape req) (str "true")) wb.

Inductive Outcome : State -> Prop :=
| OOverloaded :
    overloaded cfg w = true ->
    Outcome {| trace := [CGetMemoryUsage; CSend];
               sent := Some rejectOverload |}
| ONoFile :
    overloaded cfg w = false -> file req = None ->
    Outcome {| trace := [CGetMemoryUsage; CFilePresent; CSend];
               sent := Some rejectNoFile |}
| OInvalid f :
    overloaded cfg w = false -> file req = Some f ->
    isValidXlsx (buffer f) = false ->
    Outcome {| trace := [CGetMemoryUsage; CFilePresent; CIsValidXlsx; CSend];
               sent := Some rejectInvalid |}
| OLoadFails f e :
    overloaded cfg w = false -> file req = Some f ->
    isValidXlsx (buffer f) = true ->
    xlsx_load w (buffer f) = Throw e ->
    Outcome {| trace := upToLimit ++ [CLoad; CLimitExit; CSend];
               sent := Some (errorResponse e) |}
| OFormatFails f wb e :
    overloaded cfg w = false -> file req = Some f ->
    isValidXlsx (buffer f) = true ->
    xlsx_load w (buffer f) = Ok wb ->
    formatted wb = Throw e ->
    Outcome {| trace := upToLimit ++ [CLoad; CEachSheet; CLimitExit; CSend];
               sent := Some (errorResponse e) |}
| OWriteFails f wb wb' e :
    overloaded cfg w = false -> file req = Some f ->
    isValidXlsx (buffer f) = true ->
    xlsx_load w (buffer f) = Ok wb ->
    formatted wb = Ok wb' ->
    xlsx_writeBuffer w wb' = Throw e ->
    Outcome {| trace := upToLimit
                        ++ [CLoad; CEachSheet; CWriteBuffer; CLimitExit; CSend];
               sent := Some (errorResponse e) |}
| OFetchFails f wb wb' b e :
    overloaded cfg w = false -> file req = Some f ->
    isValidXlsx (buffer f) = true ->
    xlsx_load w (buffer f) = Ok wb ->
    formatted wb = Ok wb' ->
    xlsx_writeBuffer w wb' = Ok b ->
    fetch w (formFor b) = Throw e ->
    Outcome {| trace := upToLimit
                        ++ [CLoad; CEachSheet; CWriteBuffer; CSetTimeout;
                            CFetch (formFor b)] ++ leave;
               sent := Some (errorResponse e) |}
| OErrorBodyFails f wb wb' b r e :
    overloaded cfg w = false -> file req = Some f ->
    isValidXlsx (buffer f) = true ->
    xlsx_load w (buffer f) = Ok wb ->
    formatted wb = Ok wb' ->
    xlsx_writeBuffer w wb' = Ok b ->
    fetch w (formFor b) = Ok r ->
    ok r = false -> resp_body r = Throw e ->
    Outcome {| trace := upToLimit
                        ++ [CLoad; CEachSheet; CWriteBuffer; CSetTimeout;
                            CFetch (formFor b); CReadText] ++ leave;
               sent := Some (errorResponse e) |}
| OUpstreamError f wb wb' b r errText :
    overloaded cfg w = false -> file req = Some f ->
    isValidXlsx (buffer f) = true ->
    xlsx_load w (buffer f) = Ok wb ->
    formatted wb = Ok wb' ->
    xlsx_writeBuffer w wb' = Ok b ->
    fetch w (formFor b) = Ok r ->
    ok r = false -> resp_body r = Ok errText ->
    sendable (upstreamStatus r) = true ->
    Outcome {| trace := upToLimit
                        ++ [CLoad; CEachSheet; CWriteBuffer; CSetTimeout;
                            CFetch (formFor b); CReadText] ++ leave;
               sent := Some (jsonResponse (upstreamStatus r)
                                          "PDF conversion failed") |}
| OUpstreamUnsendable f wb wb' b r errText :
    overloaded cfg w = false -> file req = Some f ->
    isValidXlsx (buffer f) = true ->
    xlsx_load w (buffer f) = Ok wb ->
    formatted wb = Ok wb' ->
    xlsx_writeBuffer w wb' = Ok b ->
    fetch w (formFor b) = Ok r ->
    ok r = false -> resp_body r = Ok errText ->
    sendable (upstreamStatus r) = false ->
    Outcome {| trace := upToLimit
                        ++ [CLoad; CEachSheet; CWriteBuffer; CSetTimeout;
                            CFetch (formFor b); CReadText] ++ leave;
               sent := Some (errorResponse invalidStatus) |}
| OPdfBodyFails f wb wb' b r e :
    overloaded cfg w = false -> file req = Some f ->
    isValidXlsx (buffer f) = true ->
    xlsx_load w (buffer f) = Ok wb ->
    formatted wb = Ok wb' ->
    xlsx_writeBuffer w wb' = Ok b ->
    fetch w (formFor b) = Ok r ->
    ok r = true -> resp_body r = Throw e ->
    Outcome {| trace := upToLimit
                        ++ [CLoad; CEachSheet; CWriteBuffer; CSetTimeout;
                            CFetch (formFor b); CReadBuffer] ++ leave;
               sent := Some (errorResponse e) |}
| OSuccess f wb wb' b r pdf :
    overloaded cfg w = false -> file req = Some f ->
    isValidXlsx (buffer f) = true ->
    xlsx_load w (buffer f) = Ok wb ->
    formatted wb = Ok wb' ->
    xlsx_writeBuffer w wb' = Ok b ->
    fetch w (formFor b) = Ok r ->
    ok r = true -> resp_body r = Ok pdf ->
    Outcome {| trace := upToLimit
                        ++ [CLoad; CEachSheet; CWriteBuffer; CSetTimeout;
                            CFetch (formFor b); CReadBuffer] ++ leave;
               sent := Some (pdfResponse (pdfName (originalname f)) pdf) |}.

End Outcomes.

(* ================================================================== *)
(** ** Fixtures: the default configuration and some worlds and uploads *)

Definition cfg0 : Config := config emptyEnviron.

Definition FetchError : JsError :=
  {| err_name := "FetchError"; err_code := Some "ECONNREFUSED"%string |}.

Definition AbortError : JsError :=
  {| err_name := "AbortError"; err_code := None |}.

Definition MiB : Z := 1048576.

(** A world with [mb] megabytes resident, where the workbook loads as [wb],
    serialises to the ZIP signature alone, and the renderer answers [reply]. *)
Definition world (mb : Z) (wb : Workbook) (reply : Result FetchResponse)
  : World :=
  {| rss := mb * MiB;
     xlsx_load := fun _ => Ok wb;
     xlsx_writeBuffer := fun _ => Ok XLSX_MAGIC;
     fetch := fun _ => reply |}.

Definition upload (b : list byte) (name : string) : Request :=
  {| file := Some {| buffer := Some b; originalname := Some (str name) |};
     body_fontSize := None;
     body_landscape := None;
     body_singlePageSheets := None |}.

Definition textBuf : list byte := list_byte_of_string "this is not an xlsx file".

Definition noUpload : Request :=
  {| file := None; body_fontSize := None; body_landscape := None;
     body_singlePageSheets := None |}.

Definition reply (s : Z) (text : string) : Result FetchResponse :=
  Ok {| ok := (200 <=? s) && (s <? 300); resp_status := s;
        resp_body := Ok (list_byte_of_string text) |}.

(* ================================================================== *)
(** ** The formulas of the specification *)

(** [clamp(x, lo, hi)] *)
Definition clamp (x lo hi : Z) : Z :=
  if x <? lo then lo else if hi <? x then hi else x.

(** A cell is empty when it holds no value. *)
Definition nonEmpty (c : Cell) : bool :=
  match value c with
  | VNull => false
  | _ => true
  end.

(** Length of the string representation of the value of a cell. *)
Definition textLength (c : Cell) : Z :=
  match toString (value c) with
  | Some s => Z.of_nat (List.length s)
  | None => 0
  end.

(** Length of the longest string representation among the non-empty cells
    of a column, 0 when there is none. *)
Definition longestText (cs : list Cell) : Z :=
  fold_right Z.max 0 (List.map textLength (filter nonEmpty cs)).

(** The width the specification assigns to a column with these cells. *)
Definition specifiedWidth (cs : list Cell) : Z :=
  clamp (longestText cs + 2) 8 50.

(** The file name as the specification words it: strip a trailing
    spreadsheet extension, append the PDF extension, sanitise. *)
Definition stripXlsxExt (name : jsstring) : jsstring :=
  let n := (List.length name - 5)%nat in
  if isXlsxSuffix (skipn n name) then firstn n name else name.

Definition specifiedPdfName (name : jsstring) : jsstring :=
  sanitizeFilename (stripXlsxExt name ++ str ".pdf").

Fixpoint startsWith (s prefix : jsstring) : bool :=
  match prefix, s with
  | [], _ => true
  | p :: prefix', c :: s' => cu_eqb p c && startsWith s' prefix'
  | _ :: _, [] => false
  end.

(** [s.includes(sub)] *)
Fixpoint includes (s sub : jsstring) : bool :=
  startsWith s sub ||
  match s with
  | [] => false
  | _ :: s' => includes s' sub
  end.

(** [/^[A-Za-z0-9._-]+\.pdf$/.test(s)]: one or more safe characters
    followed by ".pdf" at the very end. *)
Definition matchesPdfPattern (s : jsstring) : bool :=
  let n := (List.length s - 4)%nat in
  forallb isSafeChar (firstn n s)
  && negb (Nat.eqb n 0)
  && jsstring_eqb (skipn n s) (str ".pdf").

(** All the cells of the columns of a workbook. *)
Definition cellsOf (wb : Workbook) : list Cell :=
  flat_map (fun ws => match columns ws with
                      | Some cols => flat_map cells cols
                      | None => []
                      end) wb.

Definition columnsOf (wb : Workbook) : list Column :=
  flat_map (fun ws => match columns ws with
                      | Some cols => cols
                      | None => []
                      end) wb.

Definition fontSizeOf (c : Cell) : option Z :=
  match font c with
  | Some f => size f
  | None => None
  end.

(* ================================================================== *)
(** ** Sample workbooks *)

Definition textCell (s : string) : Cell :=
  {| value := VString (str s); font := None |}.

Definition emptyCell : Cell := {| value := VNull; font := None |}.

Definition plainSetup : PageSetup :=
  {| orientation := None; fitToPage := None; fitToWidth := None;
     fitToHeight := None; paperSize := None; setupRest := [] |}.

(** The workbook of the test helper: one sheet with the row Hello, World. *)
Definition helloBook : Workbook :=
  [ {| columns := Some [ {| cells := [textCell "Hello"]; width := None |};
                         {| cells := [textCell "World"]; width := None |} ];
       pageSetup := plainSetup |} ].

(** A column of company names with a gap and a zero in it. *)
Definition companyColumn : Column :=
  {| cells := [textCell "Company 7"; emptyCell; textCell "Company 42";
               {| value := VNumber NumZero; font := None |}];
     width := None |}.

Definition withFontSize (field : string) : Request :=
  {| file := Some {| buffer := Some XLSX_MAGIC;
                     originalname := Some (str "test.xlsx") |};
     body_fontSize := Some (str field);
     body_landscape := None;
     body_singlePageSheets := None |}.

(** [helloBook] after the formatting pass of a request with fontSize 200. *)
Definition helloBook200 : Workbook :=
  match formatted cfg0 (withFontSize "200") helloBook with
  | Ok wb => wb
  | Throw _ => []
  end.

Definition companyBook : Workbook :=
  [ {| columns := Some [companyColumn]; pageSetup := plainSetup |} ].

(** [companyBook] after the formatting pass of a request without options. *)
Definition companyBookFormatted : Workbook :=
  match formatted cfg0 (upload XLSX_MAGIC "test.xlsx") companyBook with
  | Ok wb => wb
  | Throw _ => []
  end.

(* ================================================================== *)
(** ** The concurrency limiter *)

Module Limiter.

(** Modelled from the spec: the scheduler behind [limit] is the p-limit
    package, which [index.js] only instantiates ([pLimit(concurrencyLimit)])
    and calls; its code is not part of the sources.  The specification
    describes it as a counting gate of fixed capacity: [schedule] enqueues a
    task and runs it only when fewer than N tasks are running, queued tasks
    are admitted first come first served without a bound on the queue, and a
    slot is released when its task completes or fails.  Tasks are numbered in
    the order they are scheduled. *)
Record state := {
  running : list nat;
  queue : list nat;
  fresh : nat;
}.

Definition init : state := {| running := []; queue := []; fresh := 0 |}.

Inductive outcome := Completed | Failed.

Inductive event :=
| Schedule
| Settle (t : nat) (o : outcome).

Fixpoint without (t : nat) (l : list nat) : list nat :=
  match l with
  | [] => []
  | x :: r => if Nat.eqb x t then r else x :: without t r
  end.

Section Capacity.

Variable N : nat.

(** Modelled from the spec: p-limit's dequeue step, "runs it only when fewer
    than N tasks are currently running", longest waiting task first. *)
Definition startNext (s : state) : state :=
  match queue s with
  | t :: q =>
      if (List.length (running s) <? N)%nat
      then {| running := running s ++ [t]; queue := q; fresh := fresh s |}
      else s
  | [] => s
  end.

(** Modelled from the spec: p-limit's [limit(task)], "enqueues task" and
    starts it at once if a slot is free. *)
Definition schedule (s : state) : state :=
  startNext {| running := running s;
           queue := queue s ++ [fresh s];
           fresh := S (fresh s) |}.

(** Modelled from the spec: p-limit's completion step, "slots are released
    unconditionally when a task completes or fails"; the freed slot goes to
    the head of the queue. *)
Definition settle (t : nat) (o : outcome) (s : state) : state :=
  startNext {| running := without t (running s);
           queue := queue s;
           fresh := fresh s |}.

Inductive step : state -> event -> state -> Prop :=
| step_schedule s : step s Schedule (schedule s)
| step_settle s t o : In t (running s) -> step s (Settle t o) (settle t o s).

Inductive reachable : state -> Prop :=
| reach_init : reachable init
| reach_step s e s' : reachable s -> step s e s' -> reachable s'.

(** The invariant of the limiter: tasks are distinct and already numbered,
    no more than N run, and a task waits only while all N slots are taken. *)
Definition invariant (s : state) : Prop :=
  NoDup (running s ++ queue s) /\
  (forall t, In t (running s ++ queue s) -> (t < fresh s)%nat) /\
  (List.length (running s) <= N)%nat /\
  (queue s <> [] -> List.length (running s) = N).

(** Every running task can settle, one after the other, until the limiter
    is idle. *)
Inductive drains : state -> Prop :=
| drains_idle s : running s = [] -> queue s = [] -> drains s
| drains_settle s t o :
    In t (running s) -> drains (settle t o s) -> drains s.

End Capacity.

(** Three conversions arriving at a limiter of capacity two. *)
Definition threeArrivals : state := schedule 2 (schedule 2 (schedule 2 init)).

End Limiter.

(* ================================================================== *)
(** ** The middleware in front of the routes *)

(** [Buffer.from(s)]: the UTF-8 encoding of a string; a surrogate without
    its partner is encoded as U+FFFD. *)
Definition byteOf (n : N) : byte :=
  match Byte.of_N n with
  | Some b => b
  | None => x00
  end.

Definition isHighSurrogate (c : code_unit) : bool := in_range 55296 56319 c.
Definition isLowSurrogate (c : code_unit) : bool := in_range 56320 57343 c.

Definition replacementChar : list byte := [xef; xbf; xbd].

Fixpoint bufferFrom (s : jsstring) : list byte :=
  match s with
  | [] => []
  | c :: r =>
      if (c <? 128)%N then byteOf c :: bufferFrom r
      else if (c <? 2048)%N then
        byteOf (192 + c / 64) :: byteOf (128 + c mod 64) :: bufferFrom r
      else if isHighSurrogate c then
        match r with
        | d :: r' =>
            if isLowSurrogate d then
              let cp := (65536 + (c - 55296) * 1024 + (d - 56320))%N in
              byteOf (240 + cp / 262144)
              :: byteOf (128 + (cp / 4096) mod 64)
              :: byteOf (128 + (cp / 64) mod 64)
              :: byteOf (128 + cp mod 64) :: bufferFrom r'
            else replacementChar ++ bufferFrom r
        | [] => replacementChar
        end
      else if isLowSurrogate c then replacementChar ++ bufferFrom r
      else
        byteOf (224 + c / 4096) :: byteOf (128 + (c / 64) mod 64)
        :: byteOf (128 + c mod 64) :: bufferFrom r
  end.

Definition RangeError : JsError :=
  {| err_name := "RangeError";
     err_code := Some "ERR_CRYPTO_TIMING_SAFE_EQUAL_LENGTH"%string |}.

(** [crypto.timingSafeEqual(a, b)] throws on buffers of different length. *)
Definition timingSafeEqual (a b : list byte) : Result bool :=
  if Nat.eqb (List.length a) (List.length b) then Ok (bytes_equals a b)
  else Throw RangeError.

(** What a middleware does with a request: hand it on, or answer it. *)
Inductive Next :=
| Continue
| Answer (r : Response).

Definition unauthorized : Response :=
  {| status := 401; body := Json "Unauthorized" |}.

(** The API key middleware; [header] is [req.headers["x-api-key"]]. *)
Definition apiKeyMiddleware (apiKey : jsstring) (header : option jsstring)
  : Result Next :=
  match apiKey with
  | [] => Ok Continue
  | _ :: _ =>
      let provided := str_or header [] in
      let a := bufferFrom provided in
      let b := bufferFrom apiKey in
      if negb (Nat.eqb (List.length a) (List.length b)) then Ok (Answer unauthorized)
      else
        match timingSafeEqual a b with
        | Throw e => Throw e
        | Ok same =>
            if negb same then Ok (Answer unauthorized) else Ok Continue
        end
  end.

(** The callback of [res.setTimeout] in the request timeout middleware. *)
Definition onRequestTimeout : M unit :=
  already <- headersSent ;;
  if already then ret tt else json 408 "Request timeout".

(** The 404 catch-all. *)
Definition notFound : M unit := json 404 "Not found".

(* ================================================================== *)
(** ** The /health route *)

Module Health.

Record Report := {
  status : string;
  uptime : JsNumber;
  memoryMB : Z;
  gotenberg : option string;
}.

Record Reply := {
  statusCode : Z;
  report : Report;
}.

(** LineTerminator code units, which [.] does not match. *)
Definition isLineTerminator (c : code_unit) : bool :=
  N.eqb c 10 || N.eqb c 13 || N.eqb c 8232 || N.eqb c 8233.

(** [url.replace(/\/forms\/.*$/, "")]: cut at the first "/forms/" whose
    remainder runs to the end of the string without a line terminator. *)
Fixpoint gotenbergBase (url : jsstring) : jsstring :=
  if startsWith url (str "/forms/")
     && negb (existsb isLineTerminator (skipn 7 url))
  then []
  else
    match url with
    | [] => []
    | c :: r => c :: gotenbergBase r
    end.

Definition healthUrl (gotenbergUrl : jsstring) : jsstring :=
  gotenbergBase gotenbergUrl ++ str "/health".

Section Route.

Variable gotenbergUrl : jsstring.
Variable rssBytes : Z.
Variable processUptime : JsNumber.
(** [fetch(url, { signal })], aborted after five seconds. *)
Variable probe : jsstring -> Result FetchResponse.

Definition health : Reply :=
  let memoryMB := (rssBytes + 524288) / 1048576 in
  let checked :=
    match probe (healthUrl gotenbergUrl) with
    | Ok resp =>
        if ok resp then
          {| status := "ok"; uptime := processUptime; memoryMB := memoryMB;
             gotenberg := Some "reachable"%string |}
        else
          {| status := "degraded"; uptime := processUptime;
             memoryMB := memoryMB; gotenberg := Some "unhealthy"%string |}
    | Throw _ =>
        {| status := "degraded"; uptime := processUptime;
           memoryMB := memoryMB; gotenberg := Some "unreachable"%string |}
    end in
  {| statusCode := if String.eqb (status checked) "ok" then 200 else 503;
     report := checked |}.

End Route.

End Health.

(* ================================================================== *)
(** ** Observations used by the further properties *)

(** The font properties of a cell other than the size. *)
Definition fontRestOf (c : Cell) : list (string * CellValue) :=
  match font c with
  | Some f => fontRest f
  | None => []
  end.

(** The page setup the handler leaves on every sheet, for the value of
    [landscape] it works with. *)
Definition isPrintSetup (landscape : jsstring) (p : PageSetup) : Prop :=
  orientation p =
    Some (if jsstring_eqb landscape (str "true")
          then "landscape"%string else "portrait"%string) /\
  fitToPage p = Some true /\ fitToWidth p = Some 1 /\
  fitToHeight p = Some 0 /\ paperSize p = Some 9.

Definition countCalls (p : Call -> bool) (cs : list Call) : nat :=
  List.length (filter p cs).

Definition isFetch (c : Call) : bool :=
  match c with CFetch _ => true | _ => false end.
Definition isSend (c : Call) : bool :=
  match c with CSend => true | _ => false end.
Definition isSetTimeout (c : Call) : bool :=
  match c with CSetTimeout => true | _ => false end.
Definition isClearTimeout (c : Call) : bool :=
  match c with CClearTimeout => true | _ => false end.

(** Every error message the handler has. *)
Definition errorMessages : list string :=
  [ "Server is under heavy load, please try again later";
    "No file uploaded";
    "Invalid file type. Only .xlsx files are accepted";
    "PDF conversion failed";
    "PDF conversion timed out";
    "File too large";
    "Internal server error" ]%string.

(** A computation that leaves an already sent response [r0] in place and
    sends nothing itself. *)
Definition keepsResponse {A} (r0 : Response) (m : M A) : Prop :=
  forall st,
    sent st = Some r0 ->
    sent (snd (m st)) = Some r0 /\
    countCalls isSend (trace (snd (m st))) = countCalls isSend (trace st).

Definition timedOut : Response :=
  {| status := 408; body := Json "Request timeout" |}.

Definition isAscii (s : jsstring) : bool := forallb (fun c => (c <? 128)%N) s.

(** A workbook whose second sheet has no columns. *)
Definition bookWithBlankSheet : Workbook :=
  helloBook ++ [ {| columns := None; pageSetup := plainSetup |} ].

(* ================================================================== *)
(** ** The file name as multer delivers it *)

Definition isSeparator (c : code_unit) : bool := N.eqb c 47 || N.eqb c 92.

Fixpoint afterLastSeparator (path : jsstring) : jsstring :=
  match path with
  | [] => []
  | c :: r =>
      if existsb isSeparator r then afterLastSeparator r
      else if isSeparator c then r else path
  end.

(** What [upload.single("file")] puts in [req.file.originalname]: multer's
    multipart parser does not preserve paths, so the handler never sees the
    file name declared in the upload but only what follows its last slash
    or backslash, and nothing for the names "." and "..". *)
Definition basename (path : jsstring) : jsstring :=
  let name := afterLastSeparator path in
  if jsstring_eqb name (str ".") || jsstring_eqb name (str "..") then []
  else name.

(** The request the handler gets for an upload declared under [filename],
    with no form fields. *)
Definition uploadAs (filename : jsstring) (content : list byte) : Request :=
  {| file := Some {| buffer := Some content;
                     originalname := Some (basename filename) |};
     body_fontSize := None;
     body_landscape := None;
     body_singlePageSheets := None |}.

(* ================================================================== *)
(** * Properties *)

(** ** Strings, signatures and the early exits *)

Lemma jsstring_eqb_eq a b : jsstring_eqb a b = true <-> a = b.
Proof.
  revert b; induction a as [|x a IH]; destruct b as [|y b]; simpl;
    try (split; congruence).
  rewrite andb_true_iff, IH. unfold cu_eqb. rewrite N.eqb_eq.
  split; [intros [-> ->]; reflexivity | intros [= -> ->]; auto].
Qed.

Example parseInt_200 : parseInt (Some (str "200")) = Some 200.
Proof. reflexivity. Qed.

Example parseInt_ws : parseInt (Some (str "  -12px")) = Some (-12).
Proof. reflexivity. Qed.

Example parseInt_hex : parseInt (Some (str "0x1f")) = Some 31.
Proof. reflexivity. Qed.

Example parseInt_abs : parseInt None = None.
Proof. reflexivity. Qed.

Lemma bytes_equals_eq a b : bytes_equals a b = true <-> a = b.
Proof.
  revert b; induction a as [|x a IH]; destruct b as [|y b]; simpl;
    try (split; congruence).
  rewrite andb_true_iff, IH. split.
  - intros [H ->]. apply Byte.byte_dec_bl in H. now subst.
  - intros [= -> ->]. split; [now apply Byte.byte_dec_lb | reflexivity].
Qed.

Lemma isValidXlsx_iff b :
  isValidXlsx (Some b) = true <-> firstn 4 b = XLSX_MAGIC.
Proof.
  unfold isValidXlsx. destruct (List.length b <? 4)%nat eqn:E.
  - apply Nat.ltb_lt in E. split; [discriminate|].
    intros H. apply (f_equal (@List.length byte)) in H.
    rewrite length_firstn in H. change (List.length XLSX_MAGIC) with 4%nat in H.
    lia.
  - apply bytes_equals_eq.
Qed.

Lemma isValidXlsx_short b :
  (List.length b < 4)%nat -> isValidXlsx (Some b) = false.
Proof.
  intros H. unfold isValidXlsx.
  apply Nat.ltb_lt in H. now rewrite H.
Qed.

Lemma run_overloaded cfg w req :
  overloaded cfg w = true ->
  run cfg w req =
    {| trace := [CGetMemoryUsage; CSend]; sent := Some rejectOverload |}.
Proof.
  unfold overloaded, run, convert, try_catch, bind, log. simpl.
  intros ->. reflexivity.
Qed.

Lemma run_no_file cfg w req :
  overloaded cfg w = false ->
  file req = None ->
  run cfg w req =
    {| trace := [CGetMemoryUsage; CFilePresent; CSend];
       sent := Some rejectNoFile |}.
Proof.
  unfold overloaded, run, convert, try_catch, bind, log. simpl.
  intros -> ->. reflexivity.
Qed.

Lemma run_invalid cfg w req f :
  overloaded cfg w = false ->
  file req = Some f ->
  isValidXlsx (buffer f) = false ->
  run cfg w req =
    {| trace := [CGetMemoryUsage; CFilePresent; CIsValidXlsx; CSend];
       sent := Some rejectInvalid |}.
Proof.
  unfold overloaded, run, convert, try_catch, bind, log. simpl.
  intros -> -> ->. reflexivity.
Qed.

Lemma onError_fresh e tr :
  onError e {| trace := tr; sent := None |} =
  (Ok tt, {| trace := tr ++ [CSend]; sent := Some (errorResponse e) |}).
Proof.
  unfold onError, errorResponse.
  destruct (String.eqb (err_name e) "AbortError"); [reflexivity|].
  destruct (match err_code e with
            | Some c => String.eqb c "LIMIT_FILE_SIZE"
            | None => false
            end); reflexivity.
Qed.

(** The handler is total, and each of its runs is one of the outcomes. *)
Lemma run_outcome cfg w req : Outcome cfg w req (run cfg w req).
Proof.
  destruct (overloaded cfg w) eqn:Hmem.
  { rewrite run_overloaded by assumption. now constructor. }
  destruct (file req) as [f|] eqn:Hfile.
  2:{ rewrite run_no_file by assumption. now constructor. }
  destruct (isValidXlsx (buffer f)) eqn:Hvalid.
  2:{ rewrite (run_invalid _ _ _ _ Hmem Hfile Hvalid). now apply OInvalid with f. }
  unfold run, convert, try_catch, bind at 1, log at 1.
  fold (overloaded cfg w). rewrite Hmem.
  unfold bind at 1, log at 1. rewrite Hfile.
  unfold bind at 1, log at 1. rewrite Hvalid. cbn [negb].
  unfold limit, convertTask, call, try_finally, bind, log. cbn [trace sent initial app].
  destruct (xlsx_load w (buffer f)) as [wb|e] eqn:Hload.
  2:{ rewrite onError_fresh. eapply OLoadFails; eassumption. }
  fold (formatted cfg req wb).
  destruct (formatted cfg req wb) as [wb'|e] eqn:Hfmt.
  2:{ rewrite onError_fresh. eapply OFormatFails; eassumption. }
  destruct (xlsx_writeBuffer w wb') as [b|e] eqn:Hwrite.
  2:{ rewrite onError_fresh. eapply OWriteFails; eassumption. }
  fold (formFor req b).
  destruct (fetch w (formFor req b)) as [r|e] eqn:Hfetch.
  2:{ rewrite onError_fresh. eapply OFetchFails; eassumption. }
  destruct (ok r) eqn:Hok; cbn [negb];
    destruct (resp_body r) as [bytes|e] eqn:Hbody;
    try rewrite onError_fresh.
  - eapply OSuccess; eassumption.
  - eapply OPdfBodyFails; eassumption.
  - fold (upstreamStatus r). unfold json, ret. cbn [trace sent app snd].
    destruct (sendable (upstreamStatus r)) eqn:Hsend.
    + eapply OUpstreamError; eassumption.
    + unfold throw. rewrite onError_fresh.
      eapply OUpstreamUnsendable; eassumption.
  - eapply OErrorBodyFails; eassumption.
Qed.

Lemma response_outcome cfg w req :
  Outcome cfg w req
          {| trace := calls cfg w req; sent := response cfg w req |}.
Proof.
  unfold calls, response. generalize (run_outcome cfg w req).
  destruct (run cfg w req). exact (fun H => H).
Qed.

(** Case analysis on the run of one request; the goal and the reverted
    hypotheses may mention [calls] and [response]. *)
Ltac outcome_cases cfg w req :=
  let H := fresh "Hout" in
  pose proof (response_outcome cfg w req) as H;
  revert H; generalize (calls cfg w req) (response cfg w req);
  intros ? ? H; inversion H; subst; clear H;
  change (errorResponse invalidStatus)
    with {| status := 500; body := Json "Internal server error" |}.

Lemma errorResponse_cases e :
  errorResponse e = {| status := 504; body := Json "PDF conversion timed out" |}
  \/ errorResponse e = {| status := 413; body := Json "File too large" |}
  \/ errorResponse e = {| status := 500; body := Json "Internal server error" |}.
Proof.
  unfold errorResponse.
  destruct (String.eqb (err_name e) "AbortError"); [now left|].
  destruct (match err_code e with
            | Some c => String.eqb c "LIMIT_FILE_SIZE"
            | None => false
            end); [right; now left | right; now right].
Qed.

(** Running a request that was sent to the renderer with [form]. *)
Lemma fetch_form_unique cfg w req form :
  In (CFetch form) (calls cfg w req) ->
  exists f wb wb' b,
    overloaded cfg w = false /\ file req = Some f /\
    isValidXlsx (buffer f) = true /\
    xlsx_load w (buffer f) = Ok wb /\ formatted cfg req wb = Ok wb' /\
    xlsx_writeBuffer w wb' = Ok b /\ form = formFor req b.
Proof.
  intros Hin. unfold calls in Hin.
  destruct (run_outcome cfg w req);
    cbn [trace upToLimit leave app In] in Hin;
    repeat match goal with
           | H : _ \/ _ |- _ => destruct H as [H|H]
           | H : False |- _ => contradiction
           | H : _ = CFetch _ |- _ => inversion H; subst; clear H
           end;
    repeat eexists; eauto.
Qed.

(** Every request gets exactly one response. *)
Lemma response_total cfg w req : exists r, response cfg w req = Some r.
Proof.
  generalize (response_outcome cfg w req).
  generalize (calls cfg w req) (response cfg w req). intros tr resp H.
  inversion H; subst; eexists; reflexivity.
Qed.

(* ================================================================== *)
(** ** The cases of [test/convert.test.js], run on the model *)

Example test_no_file :
  response cfg0 (world 100 [] (reply 200 "%PDF")) noUpload = Some rejectNoFile.
Proof. reflexivity. Qed.

Example test_invalid_magic :
  response cfg0 (world 100 [] (reply 200 "%PDF")) (upload textBuf "bad.xlsx")
  = Some rejectInvalid.
Proof. reflexivity. Qed.

Example test_success :
  response cfg0 (world 100 helloBook (reply 200 "%PDF-1.4 fake pdf content"))
           (upload XLSX_MAGIC "report.xlsx")
  = Some (pdfResponse (str "report.pdf")
                      (list_byte_of_string "%PDF-1.4 fake pdf content")).
Proof. reflexivity. Qed.

Example test_gotenberg_error :
  response cfg0 (world 100 helloBook (reply 500 "Internal Server Error"))
           (upload XLSX_MAGIC "test.xlsx")
  = Some {| status := 502; body := Json "PDF conversion failed" |}.
Proof. reflexivity. Qed.

Example test_gotenberg_timeout :
  response cfg0 (world 100 helloBook (Throw AbortError))
           (upload XLSX_MAGIC "test.xlsx")
  = Some {| status := 504; body := Json "PDF conversion timed out" |}.
Proof. reflexivity. Qed.

Example test_memory_limit :
  response {| defaultFontSize := 9; memoryLimitMB := 1; concurrencyLimit := 5 |}
           (world 100 helloBook (reply 200 "%PDF"))
           (upload XLSX_MAGIC "test.xlsx")
  = Some rejectOverload.
Proof. reflexivity. Qed.

Example test_full_trace :
  calls cfg0 (world 100 helloBook (reply 200 "%PDF"))
        (upload XLSX_MAGIC "test.xlsx")
  = [CGetMemoryUsage; CFilePresent; CIsValidXlsx; CLimitEnter; CLoad;
     CEachSheet; CWriteBuffer; CSetTimeout;
     CFetch (formFor (upload XLSX_MAGIC "test.xlsx") XLSX_MAGIC);
     CReadBuffer; CClearTimeout; CLimitExit; CSend].
Proof. reflexivity. Qed.

(* ================================================================== *)
(** ** C1, C10: uploads that fail the signature check *)

Lemma stages_early_exit cfg w req :
  (overloaded cfg w = true \/ file req = None \/
   exists f, file req = Some f /\ isValidXlsx (buffer f) = false) ->
  invoked DocumentTransformer (stages cfg w req) = false /\
  invoked RenderDispatcher (stages cfg w req) = false.
Proof.
  unfold stages, calls. intros H.
  destruct (overloaded cfg w) eqn:Hmem.
  { rewrite run_overloaded by assumption. split; reflexivity. }
  destruct H as [H | [H | (f & Hf & Hv)]]; [discriminate | |].
  - rewrite run_no_file by assumption. split; reflexivity.
  - rewrite (run_invalid _ _ _ _ Hmem Hf Hv). split; reflexivity.
Qed.

Lemma response_bad_upload cfg w req f :
  file req = Some f -> isValidXlsx (buffer f) = false ->
  response cfg w req =
    Some (if overloaded cfg w then rejectOverload else rejectInvalid).
Proof.
  intros Hf Hv. unfold response.
  destruct (overloaded cfg w) eqn:Hmem.
  - now rewrite run_overloaded.
  - now rewrite (run_invalid _ _ _ _ Hmem Hf Hv).
Qed.

(** C1, as stated, fails: the memory guard runs before the signature check,
    so a text upload sent while 600 MB are resident (limit 512) is answered
    503, not 400. *)
Lemma C1_counterexample :
  firstn 4 textBuf <> XLSX_MAGIC /\
  response cfg0 (world 600 [] (reply 200 "%PDF")) (upload textBuf "bad.xlsx")
    = Some rejectOverload /\
  status rejectOverload <> 400.
Proof. split; [discriminate | split; [reflexivity | discriminate]]. Qed.

(** C1 (amended): an upload whose first four bytes are not the ZIP signature
    is answered 400 "Invalid file type" whenever the memory guard admits the
    request, and 503 when it does not; in neither case does the handler
    reach the document transformer or the renderer. *)
Theorem C1_bad_signature_rejected cfg w req f :
  file req = Some f ->
  (forall b, buffer f = Some b -> firstn 4 b <> XLSX_MAGIC) ->
  response cfg w req =
    Some (if overloaded cfg w then rejectOverload else rejectInvalid) /\
  invoked DocumentTransformer (stages cfg w req) = false /\
  invoked RenderDispatcher (stages cfg w req) = false.
Proof.
  intros Hf Hsig.
  assert (Hv : isValidXlsx (buffer f) = false).
  { destruct (buffer f) as [b|] eqn:Hb; [|reflexivity].
    destruct (isValidXlsx (Some b)) eqn:E; [|reflexivity].
    apply isValidXlsx_iff in E. now elim (Hsig b). }
  split; [now apply response_bad_upload with f|].
  apply stages_early_exit. right; right. now exists f.
Qed.

Lemma C1_witness :
  response cfg0 (world 100 [] (reply 200 "%PDF")) (upload textBuf "bad.xlsx")
    = Some rejectInvalid /\
  invoked DocumentTransformer
    (stages cfg0 (world 100 [] (reply 200 "%PDF")) (upload textBuf "bad.xlsx"))
    = false /\
  invoked RenderDispatcher
    (stages cfg0 (world 100 [] (reply 200 "%PDF")) (upload textBuf "bad.xlsx"))
    = false.
Proof.
  apply (C1_bad_signature_rejected cfg0 (world 100 [] (reply 200 "%PDF"))
           (upload textBuf "bad.xlsx")
           {| buffer := Some textBuf; originalname := Some (str "bad.xlsx") |}).
  - reflexivity.
  - intros b [= <-]. discriminate.
Defined.

(** C10, as stated, fails for the same reason as C1: an empty upload sent
    while the process is above its memory limit is answered 503, not 400. *)
Lemma C10_counterexample :
  isValidXlsx (Some []) = false /\
  response cfg0 (world 600 [] (reply 200 "%PDF")) (upload [] "tiny.txt")
    = Some rejectOverload /\
  status rejectOverload <> 400.
Proof. split; [reflexivity | split; [reflexivity | discriminate]]. Qed.

(** C10 (amended): [isValidXlsx] returns false on a null or undefined buffer
    and on every buffer shorter than four bytes; such an upload is answered
    400 "Invalid file type" whenever the memory guard admits the request and
    503 otherwise, never with an internal error, and the workbook is never
    loaded. *)
Theorem C10_short_buffer_rejected cfg w req f :
  file req = Some f ->
  (buffer f = None \/
   exists b, buffer f = Some b /\ (List.length b < 4)%nat) ->
  isValidXlsx (buffer f) = false /\
  response cfg w req =
    Some (if overloaded cfg w then rejectOverload else rejectInvalid) /\
  (forall r, response cfg w req = Some r -> status r <> 500) /\
  invoked DocumentTransformer (stages cfg w req) = false.
Proof.
  intros Hf Hshort.
  assert (Hv : isValidXlsx (buffer f) = false).
  { destruct Hshort as [-> | (b & -> & Hlen)]; [reflexivity|].
    now apply isValidXlsx_short. }
  split; [exact Hv|].
  split; [now apply response_bad_upload with f|].
  split.
  - intros r. rewrite (response_bad_upload _ _ _ _ Hf Hv).
    intros [= <-]. destruct (overloaded cfg w); discriminate.
  - apply stages_early_exit. right; right. now exists f.
Qed.

Lemma C10_witness :
  isValidXlsx (Some [x50; x4b; x03]) = false /\
  response cfg0 (world 100 [] (reply 200 "%PDF"))
           (upload [x50; x4b; x03] "cut.xlsx") = Some rejectInvalid.
Proof.
  destruct (C10_short_buffer_rejected cfg0 (world 100 [] (reply 200 "%PDF"))
              (upload [x50; x4b; x03] "cut.xlsx")
              {| buffer := Some [x50; x4b; x03];
                 originalname := Some (str "cut.xlsx") |})
    as (Hv & Hr & _).
  - reflexivity.
  - right. exists [x50; x4b; x03]. split; [reflexivity | simpl; lia].
  - split; [exact Hv | exact Hr].
Defined.

(* ================================================================== *)
(** ** C8: the order of the stages *)

(** C8, as stated, fails: the handler measures memory before it looks at the
    upload.  A request without a file runs the admission guard, then the
    validator; under memory pressure it is answered by the guard (503), not
    by the validator (400). *)
Lemma C8_counterexample :
  stages cfg0 (world 100 [] (reply 200 "%PDF")) noUpload
    = [AdmissionGuard; InputValidator; ResponseComposer] /\
  inOrder listedRank (stages cfg0 (world 100 [] (reply 200 "%PDF")) noUpload)
    = false /\
  response cfg0 (world 600 [] (reply 200 "%PDF")) noUpload
    = Some rejectOverload.
Proof. split; [reflexivity | split; reflexivity]. Qed.

(** C8 (amended): for every request the stages run in the order Admission
    Guard, Input Validator, Document Transformer, Render Dispatcher, Response
    Composer; no later stage of this order runs before an earlier one, the
    guard always runs first and the composer last, and the transformer and
    the dispatcher run only between taking and returning a limiter slot. *)
Theorem C8_stage_order cfg w req :
  inOrder handlerRank (stages cfg w req) = true /\
  hd_error (stages cfg w req) = Some AdmissionGuard /\
  last (stages cfg w req) AdmissionGuard = ResponseComposer /\
  insideLimiter false (calls cfg w req) = true.
Proof.
  unfold stages, calls.
  destruct (run_outcome cfg w req); repeat split; reflexivity.
Qed.

(* ================================================================== *)
(** ** C2, C3: what the renderer's answer becomes *)

(** The response once the renderer has been called with [form]. *)
Lemma response_after_fetch cfg w req form :
  In (CFetch form) (calls cfg w req) ->
  exists f,
    file req = Some f /\
    response cfg w req =
      Some match fetch w form with
           | Throw e => errorResponse e
           | Ok r =>
               match resp_body r with
               | Throw e => errorResponse e
               | Ok bytes =>
                   if ok r then
                     pdfResponse (pdfName (originalname f)) bytes
                   else if sendable (upstreamStatus r) then
                     jsonResponse (upstreamStatus r) "PDF conversion failed"
                   else errorResponse invalidStatus
               end
           end.
Proof.
  intros Hin.
  destruct (fetch_form_unique _ _ _ _ Hin)
    as (f & wb & wb' & b & Hmem & Hf & Hv & Hl & Hfmt & Hw & ->).
  exists f. split; [exact Hf|].
  generalize (response_outcome cfg w req).
  generalize (response cfg w req) (calls cfg w req). intros resp tr Hout.
  inversion Hout; subst; try congruence;
    repeat match goal with
           | H1 : ?x = _, H2 : ?x = _ |- _ =>
               rewrite H1 in H2; inversion H2; subst; clear H2
           end;
    repeat match goal with
           | H : ?x = _ |- context [?x] => rewrite H
           end;
    reflexivity.
Qed.

(** C2, as stated, fails in four places.  A non-success status above 599
    is not passed through: the handler turns every status from 500 up into
    502.  When the error body cannot be read, the client gets the answer of
    the catch block instead of "PDF conversion failed".  A passed-through 304
    goes out without any body, so the message is not sent.  And a status
    below 100 cannot be passed through at all: writing it throws, and the
    catch block answers 500. *)
Lemma C2_counterexample :
  response cfg0 (world 100 [] (reply 999 "denied")) (upload XLSX_MAGIC "a.xlsx")
    = Some {| status := 502; body := Json "PDF conversion failed" |} /\
  response cfg0
           (world 100 []
                  (Ok {| ok := false; resp_status := 500;
                         resp_body := Throw FetchError |}))
           (upload XLSX_MAGIC "a.xlsx")
    = Some {| status := 500; body := Json "Internal server error" |} /\
  response cfg0 (world 100 [] (reply 304 "")) (upload XLSX_MAGIC "a.xlsx")
    = Some {| status := 304; body := Empty |} /\
  response cfg0 (world 100 [] (reply 42 "odd")) (upload XLSX_MAGIC "a.xlsx")
    = Some {| status := 500; body := Json "Internal server error" |}.
Proof. repeat split. Qed.

(** C2 (amended): for every renderer response with a non-success status
    whose error body has been read, the client receives 502 with the fixed
    message "PDF conversion failed" when the status is 500 or more (codes
    above 599 included), and the renderer's own status when it lies between
    100 and 499; a passed-through status carries the same fixed message,
    except that a response of status 1xx, 204, 205 or 304 carries no body
    at all; a status below 100 cannot be written and is answered 500
    "Internal server error".  Whatever the renderer's error body says, the
    client sees one of these two fixed messages or no body. *)
Theorem C2_upstream_error cfg w req form r errText :
  In (CFetch form) (calls cfg w req) ->
  fetch w form = Ok r ->
  ok r = false ->
  resp_body r = Ok errText ->
  exists answer,
    response cfg w req = Some answer /\
    (500 <= resp_status r ->
     answer = {| status := 502; body := Json "PDF conversion failed" |}) /\
    (100 <= resp_status r < 500 ->
     status answer = resp_status r /\
     body answer = if bodyless (resp_status r) then Empty
                   else Json "PDF conversion failed") /\
    (206 <= resp_status r < 500 -> resp_status r <> 304 ->
     answer = {| status := resp_status r;
                 body := Json "PDF conversion failed" |}) /\
    (resp_status r = 304 -> answer = {| status := 304; body := Empty |}) /\
    (resp_status r < 100 ->
     answer = {| status := 500; body := Json "Internal server error" |}) /\
    (body answer = Empty \/
     body answer = Json "PDF conversion failed" \/
     body answer = Json "Internal server error").
Proof.
  intros Hin Hfetch Hok Hbody.
  destruct (response_after_fetch _ _ _ _ Hin) as (f & _ & ->).
  rewrite Hfetch, Hbody, Hok. unfold upstreamStatus, sendable, jsonResponse.
  destruct (Z.geb_spec (resp_status r) 500) as [Hhi|Hlo].
  - eexists. split; [reflexivity|]. cbn.
    repeat split; intros; try lia; try reflexivity. tauto.
  - destruct (Z.leb_spec 100 (resp_status r)) as [H100|H100];
      destruct (Z.leb_spec (resp_status r) 999) as [H999|H999];
      try lia; cbn [andb].
    + eexists. split; [reflexivity|]. cbn [status body].
      split; [intros; lia|]. split; [intros; split; reflexivity|].
      split.
      { intros H206 H304. f_equal. unfold bodyless.
        destruct (Z.leb_spec (resp_status r) 199); [lia|].
        rewrite andb_false_r. cbn [orb].
        destruct (Z.eqb_spec (resp_status r) 204); [lia|].
        destruct (Z.eqb_spec (resp_status r) 205); [lia|].
        destruct (Z.eqb_spec (resp_status r) 304); [lia|]. reflexivity. }
      split; [intros ->; reflexivity|]. split; [intros; lia|].
      destruct (bodyless (resp_status r)); tauto.
    + eexists. split; [reflexivity|]. cbn.
      repeat split; intros; try lia; try reflexivity. tauto.
Qed.

Lemma C2_witness :
  response cfg0 (world 100 [] (reply 500 "Internal Server Error"))
           (upload XLSX_MAGIC "test.xlsx")
    = Some {| status := 502; body := Json "PDF conversion failed" |} /\
  response cfg0 (world 100 [] (reply 404 "Not Found"))
           (upload XLSX_MAGIC "test.xlsx")
    = Some {| status := 404; body := Json "PDF conversion failed" |}.
Proof.
  split.
  - destruct (C2_upstream_error cfg0
                (world 100 [] (reply 500 "Internal Server Error"))
                (upload XLSX_MAGIC "test.xlsx")
                (formFor (upload XLSX_MAGIC "test.xlsx") XLSX_MAGIC)
                {| ok := false; resp_status := 500;
                   resp_body :=
                     Ok (list_byte_of_string "Internal Server Error") |}
                (list_byte_of_string "Internal Server Error"))
      as (answer & Hr & Hhi & _).
    + simpl. tauto.
    + reflexivity.
    + reflexivity.
    + reflexivity.
    + rewrite Hr, Hhi; [reflexivity | simpl; lia].
  - destruct (C2_upstream_error cfg0
                (world 100 [] (reply 404 "Not Found"))
                (upload XLSX_MAGIC "test.xlsx")
                (formFor (upload XLSX_MAGIC "test.xlsx") XLSX_MAGIC)
                {| ok := false; resp_status := 404;
                   resp_body := Ok (list_byte_of_string "Not Found") |}
                (list_byte_of_string "Not Found"))
      as (answer & Hr & _ & _ & Hpass & _).
    + simpl. tauto.
    + reflexivity.
    + reflexivity.
    + reflexivity.
    + rewrite Hr, Hpass; [reflexivity | simpl; lia | discriminate].
Defined.

(** C3, as stated, fails for transport failures: when the connection to the
    renderer is refused, [fetch] rejects with a FetchError, which the catch
    block answers with 500 "Internal server error", not 504. *)
Lemma C3_counterexample :
  response cfg0 (world 100 [] (Throw FetchError)) (upload XLSX_MAGIC "a.xlsx")
    = Some {| status := 500; body := Json "Internal server error" |}.
Proof. reflexivity. Qed.

(** C3 (amended): for every outbound renderer call that is aborted by the
    timeout's cancellation signal, that is, whose [fetch] or body read
    rejects with an error named AbortError, the client receives 504 "PDF
    conversion timed out".  A call that fails with an error of any other
    name is never answered 504. *)
Theorem C3_abort_is_timeout cfg w req form e :
  In (CFetch form) (calls cfg w req) ->
  (fetch w form = Throw e \/
   exists r, fetch w form = Ok r /\ resp_body r = Throw e) ->
  (err_name e = "AbortError"%string ->
   response cfg w req =
     Some {| status := 504; body := Json "PDF conversion timed out" |}) /\
  (err_name e <> "AbortError"%string ->
   forall r, response cfg w req = Some r -> status r <> 504).
Proof.
  intros Hin Hfail.
  destruct (response_after_fetch _ _ _ _ Hin) as (f & _ & Hresp).
  assert (Hr : response cfg w req = Some (errorResponse e)).
  { rewrite Hresp. destruct Hfail as [-> | (r & -> & ->)]; reflexivity. }
  rewrite Hr. unfold errorResponse. split.
  - intros ->. reflexivity.
  - intros Hname r [= <-].
    destruct (String.eqb_spec (err_name e) "AbortError"); [contradiction|].
    destruct (match err_code e with
              | Some c => String.eqb c "LIMIT_FILE_SIZE"
              | None => false
              end); discriminate.
Qed.

Lemma C3_witness :
  response cfg0 (world 100 [] (Throw AbortError))
           (upload XLSX_MAGIC "test.xlsx")
    = Some {| status := 504; body := Json "PDF conversion timed out" |}.
Proof.
  apply (C3_abort_is_timeout cfg0 (world 100 [] (Throw AbortError))
           (upload XLSX_MAGIC "test.xlsx")
           (formFor (upload XLSX_MAGIC "test.xlsx") XLSX_MAGIC) AbortError).
  - simpl. tauto.
  - left. reflexivity.
  - reflexivity.
Defined.

(* ================================================================== *)
(** ** The formatting pass *)

Section FormattingFacts.

Variable fontSize : Z.
Variable landscape : jsstring.

Lemma cellValue_setFont c :
  cellValue (setFont fontSize c) = cellValue c.
Proof. reflexivity. Qed.

Lemma setFont_idem c :
  setFont fontSize (setFont fontSize c) = setFont fontSize c.
Proof. reflexivity. Qed.

Lemma maxLengthFrom_setFont cs start :
  maxLengthFrom start (List.map (setFont fontSize) cs) = maxLengthFrom start cs.
Proof.
  revert start. induction cs as [|c cs IH]; intros start; [reflexivity|].
  unfold maxLengthFrom in *. simpl. now rewrite IH.
Qed.

Lemma formatColumn_idem col :
  formatColumn fontSize (formatColumn fontSize col) = formatColumn fontSize col.
Proof.
  unfold formatColumn. cbn [cells width].
  rewrite maxLengthFrom_setFont, map_map.
  f_equal; apply map_ext; intros c; apply setFont_idem.
Qed.

Lemma formatSheet_idem ws ws' :
  formatSheet fontSize landscape ws = Ok ws' ->
  formatSheet fontSize landscape ws' = Ok ws'.
Proof.
  unfold formatSheet. destruct (columns ws) as [cols|]; [|discriminate].
  intros [= <-]. cbn [columns pageSetup]. do 2 f_equal.
  rewrite map_map. f_equal; apply map_ext; intros col; apply formatColumn_idem.
Qed.

Lemma eachSheet_cons_inv ws rest out :
  eachSheet fontSize landscape (ws :: rest) = Ok out ->
  exists ws' rest',
    out = ws' :: rest' /\
    formatSheet fontSize landscape ws = Ok ws' /\
    eachSheet fontSize landscape rest = Ok rest'.
Proof.
  simpl. destruct (formatSheet fontSize landscape ws) as [ws'|]; [|discriminate].
  destruct (eachSheet fontSize landscape rest) as [rest'|]; [|discriminate].
  intros [= <-]. now exists ws', rest'.
Qed.

Lemma eachSheet_columns wb wb' :
  eachSheet fontSize landscape wb = Ok wb' ->
  columnsOf wb' = List.map (formatColumn fontSize) (columnsOf wb).
Proof.
  revert wb'. induction wb as [|ws rest IH]; intros wb' H.
  - injection H as <-. reflexivity.
  - apply eachSheet_cons_inv in H. destruct H as (ws' & rest' & -> & Hs & Hr).
    unfold columnsOf in *. simpl. rewrite map_app, <- (IH _ Hr). f_equal.
    unfold formatSheet in Hs. destruct (columns ws) as [cols|]; [|discriminate].
    now injection Hs as <-.
Qed.

Lemma eachSheet_cells wb wb' :
  eachSheet fontSize landscape wb = Ok wb' ->
  cellsOf wb' = List.map (setFont fontSize) (cellsOf wb).
Proof.
  revert wb'. induction wb as [|ws rest IH]; intros wb' H.
  - injection H as <-. reflexivity.
  - apply eachSheet_cons_inv in H. destruct H as (ws' & rest' & -> & Hs & Hr).
    unfold cellsOf in *. simpl. rewrite map_app, <- (IH _ Hr). f_equal.
    unfold formatSheet in Hs. destruct (columns ws) as [cols|]; [|discriminate].
    injection Hs as <-. cbn [columns].
    induction cols as [|col cols IHc]; [reflexivity|].
    simpl. now rewrite map_app, IHc.
Qed.

End FormattingFacts.


(* ================================================================== *)
(** ** C5: the font size *)



(* ================================================================== *)
(** ** C6: the column width *)

Lemma maxLengthFrom_max start cs :
  0 <= start ->
  maxLengthFrom start cs =
  Z.max start
        (fold_right Z.max 0
           (List.map (fun c => Z.of_nat (List.length (cellValue c))) cs)).
Proof.
  revert start. induction cs as [|c cs IH]; intros start Hs.
  - simpl. lia.
  - unfold maxLengthFrom in *. simpl. rewrite IH by lia. lia.
Qed.

(** A falsy value that is not null prints in at most five characters. *)
Lemma cell_lengths c :
  let code := Z.of_nat (List.length (cellValue c)) in
  let spec := if nonEmpty c then textLength c else 0 in
  0 <= code <= spec /\ spec <= Z.max code 5.
Proof.
  unfold cellValue, nonEmpty, textLength.
  destruct (value c) as [|[|]|[| |shown]|[|ch s]|shown|]; cbn; lia.
Qed.

Lemma longestText_bounds cs :
  let code :=
    fold_right Z.max 0
      (List.map (fun c => Z.of_nat (List.length (cellValue c))) cs) in
  0 <= code <= longestText cs /\ longestText cs <= Z.max code 5.
Proof.
  induction cs as [|c cs IH]; [cbn; lia|].
  pose proof (cell_lengths c) as Hc. cbn zeta in *.
  unfold longestText in *. cbn [List.map fold_right filter].
  destruct (nonEmpty c); cbn [List.map fold_right]; lia.
Qed.

Lemma formatColumn_width fontSize col :
  width (formatColumn fontSize col) = Some (specifiedWidth (cells col)).
Proof.
  unfold formatColumn, specifiedWidth. cbn [width]. f_equal.
  rewrite maxLengthFrom_max by lia.
  pose proof (longestText_bounds (cells col)) as H. cbn zeta in H.
  unfold minMax, clamp.
  destruct (Z.ltb_spec (longestText (cells col) + 2) 8);
    destruct (Z.ltb_spec 50 (longestText (cells col) + 2)); lia.
Qed.

Lemma longestText_setFont fontSize cs :
  longestText (List.map (setFont fontSize) cs) = longestText cs.
Proof.
  unfold longestText. induction cs as [|c cs IH]; [reflexivity|].
  cbn [List.map filter]. change (nonEmpty (setFont fontSize c)) with (nonEmpty c).
  destruct (nonEmpty c); cbn [List.map fold_right]; now rewrite IH.
Qed.

(** C6: in the formatted workbook every column of every sheet has the width
    clamp(L + 2, 8, 50), where L is the length of the longest string
    representation among the column's non-empty cells (0 when it has none);
    a column whose longest value is "Company 42" gets 12. *)
Theorem C6_column_width cfg req wb wb' :
  formatted cfg req wb = Ok wb' ->
  Forall (fun col => width col = Some (clamp (longestText (cells col) + 2) 8 50))
         (columnsOf wb') /\
  (forall fontSize col,
     longestText (cells col) = 10 ->
     width (formatColumn fontSize col) = Some 12) /\
  longestText (cells companyColumn) = 10.
Proof.
  intros Hfmt. split; [|split; [|reflexivity]].
  2:{ intros fontSize col H10. rewrite formatColumn_width.
      unfold specifiedWidth. now rewrite H10. }
  unfold formatted in Hfmt. rewrite (eachSheet_columns _ _ _ _ Hfmt).
  apply Forall_forall. intros col' Hin. apply in_map_iff in Hin.
  destruct Hin as (col & <- & _).
  rewrite formatColumn_width. unfold specifiedWidth, formatColumn.
  cbn [cells]. now rewrite longestText_setFont.
Qed.

Lemma C6_witness :
  formatted cfg0 (upload XLSX_MAGIC "test.xlsx") companyBook
    = Ok companyBookFormatted /\
  Forall (fun col => width col = Some (clamp (longestText (cells col) + 2) 8 50))
         (columnsOf companyBookFormatted) /\
  List.map width (columnsOf companyBookFormatted) = [Some 12].
Proof.
  split; [reflexivity|]. split; [|reflexivity].
  apply (C6_column_width cfg0 (upload XLSX_MAGIC "test.xlsx") companyBook
           companyBookFormatted eq_refl).
Defined.

(* ================================================================== *)
(** ** C9: formatting twice *)

Lemma eachSheet_idem fontSize landscape wb wb' :
  eachSheet fontSize landscape wb = Ok wb' ->
  eachSheet fontSize landscape wb' = Ok wb'.
Proof.
  revert wb'. induction wb as [|ws rest IH]; intros wb' H.
  - injection H as <-. reflexivity.
  - apply eachSheet_cons_inv in H. destruct H as (ws' & rest' & -> & Hs & Hr).
    simpl. rewrite (formatSheet_idem _ _ _ _ Hs), (IH _ Hr). reflexivity.
Qed.

Lemma cellValue_value c1 c2 : value c1 = value c2 -> cellValue c1 = cellValue c2.
Proof. unfold cellValue. now intros ->. Qed.

Lemma maxLengthFrom_values start cs1 cs2 :
  List.map value cs1 = List.map value cs2 ->
  maxLengthFrom start cs1 = maxLengthFrom start cs2.
Proof.
  revert start cs2. induction cs1 as [|c1 cs1 IH]; intros start [|c2 cs2] H;
    try discriminate; [reflexivity|].
  injection H as Hv Hrest. unfold maxLengthFrom in *. simpl.
  rewrite (cellValue_value _ _ Hv). now apply IH.
Qed.

(** C9: formatting an already formatted workbook again, with the same
    options, gives back the same workbook: no font, width or page setup
    changes.  Width and font size depend on the cell values and the options
    only: two columns with the same values get the same width and the same
    font size whatever their fonts and widths were before. *)
Theorem C9_transform_idempotent cfg req wb wb' :
  formatted cfg req wb = Ok wb' ->
  formatted cfg req wb' = Ok wb' /\
  (forall fontSize col1 col2,
     List.map value (cells col1) = List.map value (cells col2) ->
     width (formatColumn fontSize col1) = width (formatColumn fontSize col2) /\
     List.map fontSizeOf (cells (formatColumn fontSize col1)) =
     List.map fontSizeOf (cells (formatColumn fontSize col2))).
Proof.
  intros H. split; [now apply eachSheet_idem with wb|].
  intros fontSize col1 col2 Hv. split.
  - unfold formatColumn. cbn [width].
    now rewrite (maxLengthFrom_values 0 _ _ Hv).
  - unfold formatColumn. cbn [cells]. rewrite !map_map.
    apply (f_equal (@List.length CellValue)) in Hv. rewrite !length_map in Hv.
    revert Hv. generalize (cells col1) (cells col2).
    induction l as [|c1 l IH]; intros [|c2 l2] Hlen; try discriminate;
      [reflexivity|].
    simpl. f_equal. apply IH. now injection Hlen.
Qed.

Lemma C9_witness :
  formatted cfg0 (withFontSize "200") helloBook = Ok helloBook200 /\
  formatted cfg0 (withFontSize "200") helloBook200 = Ok helloBook200.
Proof.
  split; [reflexivity|].
  apply (C9_transform_idempotent cfg0 (withFontSize "200") helloBook
           helloBook200 eq_refl).
Defined.

(* ================================================================== *)
(** ** C7: the file name of the download *)

Lemma sanitizeFilename_safe s : forallb isSafeChar (sanitizeFilename s) = true.
Proof.
  induction s as [|c s IH]; [reflexivity|].
  simpl. rewrite IH, andb_true_r.
  destruct (isSafeChar c) eqn:E; [exact E | reflexivity].
Qed.

Lemma sanitizeFilename_app a b :
  sanitizeFilename (a ++ b) = sanitizeFilename a ++ sanitizeFilename b.
Proof. apply map_app. Qed.

Lemma isXlsxSuffix_length ext : isXlsxSuffix ext = true -> List.length ext = 5%nat.
Proof.
  unfold isXlsxSuffix. intros H. apply jsstring_eqb_eq in H.
  apply (f_equal (@List.length code_unit)) in H.
  now rewrite length_map in H.
Qed.

Lemma replaceXlsxExt_match base ext :
  isXlsxSuffix ext = true ->
  replaceXlsxExt (base ++ ext) = base ++ str ".pdf".
Proof.
  intros H. pose proof (isXlsxSuffix_length _ H) as Hlen.
  unfold replaceXlsxExt. rewrite length_app, Hlen, Nat.add_sub.
  rewrite skipn_app, skipn_all, Nat.sub_diag, firstn_app, firstn_all,
    Nat.sub_diag.
  simpl. rewrite H. now rewrite app_nil_r.
Qed.

Lemma replaceXlsxExt_other name :
  (forall base ext, name = base ++ ext -> isXlsxSuffix ext = false) ->
  replaceXlsxExt name = name.
Proof.
  intros H. unfold replaceXlsxExt.
  rewrite (H (firstn (List.length name - 5) name)
             (skipn (List.length name - 5) name));
    [reflexivity | now rewrite firstn_skipn].
Qed.

Lemma matches_sanitized_pdf base :
  base <> [] ->
  matchesPdfPattern (sanitizeFilename base ++ str ".pdf") = true.
Proof.
  intros Hbase. unfold matchesPdfPattern.
  rewrite length_app. change (List.length (str ".pdf")) with 4%nat.
  rewrite Nat.add_sub.
  assert (Hl : List.length (sanitizeFilename base) <> 0%nat).
  { unfold sanitizeFilename. rewrite length_map.
    destruct base; [contradiction | discriminate]. }
  rewrite firstn_app, firstn_all, Nat.sub_diag, skipn_app, skipn_all,
    Nat.sub_diag.
  simpl firstn. simpl skipn. rewrite app_nil_r, sanitizeFilename_safe.
  apply Nat.eqb_neq in Hl. rewrite Hl. reflexivity.
Qed.

Lemma pdfName_replaced originalname base ext :
  str_or originalname (str "export.xlsx") = base ++ ext ->
  isXlsxSuffix ext = true ->
  pdfName originalname = sanitizeFilename base ++ str ".pdf".
Proof.
  intros Hname Hext. unfold pdfName. rewrite Hname.
  now rewrite (replaceXlsxExt_match _ _ Hext), sanitizeFilename_app.
Qed.

Lemma pdfName_kept originalname :
  (forall base ext,
     str_or originalname (str "export.xlsx") = base ++ ext ->
     isXlsxSuffix ext = false) ->
  pdfName originalname
  = sanitizeFilename (str_or originalname (str "export.xlsx")).
Proof.
  intros Hother. unfold pdfName. now rewrite (replaceXlsxExt_other _ Hother).
Qed.

(** C7, as stated, fails in two places.  A name that does not end in
    ".xlsx" is left without a PDF extension, where stripping and appending
    would give one: an upload named report.txt is answered with the file
    name report.txt.  And for the upload named evil, double quote,
    "; rm -rf /.xlsx" the handler is given only what follows the slash,
    ".xlsx", and answers with the file name ".pdf", which does not match
    ^[A-Za-z0-9._-]+\.pdf$ because nothing precedes the extension. *)
Lemma C7_counterexample :
  response cfg0 (world 100 helloBook (reply 200 "%PDF"))
           (uploadAs (str "report.txt") XLSX_MAGIC)
  = Some (pdfResponse (str "report.txt") (list_byte_of_string "%PDF")) /\
  specifiedPdfName (str "report.txt") = str "report.txt.pdf" /\
  matchesPdfPattern (str "report.txt") = false /\
  response cfg0 (world 100 helloBook (reply 200 "%PDF"))
           (uploadAs evilName XLSX_MAGIC)
  = Some (pdfResponse (str ".pdf") (list_byte_of_string "%PDF")) /\
  matchesPdfPattern (str ".pdf") = false.
Proof. repeat split. Qed.

(** C7 (amended): on a successful render the Content-Disposition file name
    is made from the name the handler is given (the declared name cut after
    its last slash or backslash; "export.xlsx" when that is empty): a
    trailing ".xlsx", in any letter case, is replaced by ".pdf", a name
    without that ending keeps its own ending, and every character outside
    [A-Za-z0-9._-] is then replaced by an underscore.  When something
    precedes the ".xlsx" the result matches ^[A-Za-z0-9._-]+\.pdf$.  For the
    upload named evil, double quote, "; rm -rf /.xlsx" the handler is given
    ".xlsx" and the file name is ".pdf": safe characters only, no rm, quote
    or semicolon. *)
Theorem C7_pdf_name cfg w req r headers data :
  response cfg w req = Some r ->
  body r = Pdf headers data ->
  exists f,
    file req = Some f /\
    contentDisposition headers
    = str "attachment; filename="
      ++ 34%N :: pdfName (originalname f) ++ [34%N] /\
    forallb isSafeChar (pdfName (originalname f)) = true /\
    (forall base ext,
       str_or (originalname f) (str "export.xlsx") = base ++ ext ->
       isXlsxSuffix ext = true ->
       pdfName (originalname f) = sanitizeFilename base ++ str ".pdf" /\
       (base <> [] ->
        matchesPdfPattern (pdfName (originalname f)) = true)) /\
    ((forall base ext,
        str_or (originalname f) (str "export.xlsx") = base ++ ext ->
        isXlsxSuffix ext = false) ->
     pdfName (originalname f)
     = sanitizeFilename (str_or (originalname f) (str "export.xlsx"))) /\
    (originalname f = Some (basename evilName) ->
     pdfName (originalname f) = str ".pdf" /\
     includes (pdfName (originalname f)) (str "rm") = false /\
     includes (pdfName (originalname f)) [34%N] = false /\
     includes (pdfName (originalname f)) [59%N] = false).
Proof.
  intros Hr Hbody.
  assert (Hf : exists f,
            file req = Some f /\
            contentDisposition headers
            = str "attachment; filename="
              ++ 34%N :: pdfName (originalname f) ++ [34%N]).
  { revert Hr Hbody. outcome_cases cfg w req; intros [= <-];
      try (destruct (errorResponse_cases e) as [-> | [-> | ->]]);
      cbn [body rejectOverload rejectNoFile rejectInvalid pdfResponse
           jsonResponse];
      try match goal with
          | |- context [bodyless ?s] => destruct (bodyless s)
          end;
      try discriminate.
    intros [= <- <-]. exists f. split; [assumption | reflexivity]. }
  destruct Hf as (f & Hfile & Hdisp). exists f.
  split; [exact Hfile|]. split; [exact Hdisp|].
  split; [apply sanitizeFilename_safe|]. split; [|split].
  - intros base ext Hname Hext.
    rewrite (pdfName_replaced _ _ _ Hname Hext).
    split; [reflexivity | apply matches_sanitized_pdf].
  - apply pdfName_kept.
  - intros ->. repeat split.
Qed.

Lemma C7_witness :
  exists f,
    file (uploadAs (str "my report (2024).XLSX") XLSX_MAGIC) = Some f /\
    str "attachment; filename="
    ++ 34%N :: str "my_report__2024_.pdf" ++ [34%N]
    = str "attachment; filename="
      ++ 34%N :: pdfName (originalname f) ++ [34%N].
Proof.
  destruct (C7_pdf_name cfg0 (world 100 helloBook (reply 200 "%PDF"))
              (uploadAs (str "my report (2024).XLSX") XLSX_MAGIC)
              (pdfResponse (str "my_report__2024_.pdf")
                           (list_byte_of_string "%PDF"))
              {| contentType := "application/pdf";
                 contentDisposition :=
                   str "attachment; filename="
                   ++ 34%N :: str "my_report__2024_.pdf" ++ [34%N];
                 contentLength := 4 |}
              (list_byte_of_string "%PDF") eq_refl eq_refl)
    as (f & Hfile & Hdisp & _).
  exists f. split; [exact Hfile | exact Hdisp].
Defined.

(* ================================================================== *)
(** ** C4: the concurrency limiter *)

Section LimiterFacts.

Import Limiter.

Variable N : nat.

Lemma In_without t x l : In x (without t l) -> In x l.
Proof.
  induction l as [|y r IH]; simpl; [tauto|].
  destruct (Nat.eqb y t); simpl; tauto.
Qed.

Lemma length_without t l :
  In t l -> S (List.length (without t l)) = List.length l.
Proof.
  induction l as [|y r IH]; simpl; [tauto|].
  destruct (Nat.eqb_spec y t) as [->|Hne]; [reflexivity|].
  intros [H|H]; [contradiction | simpl; now rewrite IH].
Qed.

Lemma NoDup_without_app t l1 l2 :
  NoDup (l1 ++ l2) -> NoDup (without t l1 ++ l2).
Proof.
  induction l1 as [|y r IH]; simpl; [tauto|].
  intros H. apply NoDup_cons_iff in H. destruct H as [Hy Hr].
  destruct (Nat.eqb y t); [exact Hr|].
  simpl. apply NoDup_cons; [|now apply IH].
  intros Hin. apply Hy. apply in_app_iff in Hin. apply in_app_iff.
  destruct Hin as [Hin|Hin]; [left; now apply In_without with t | now right].
Qed.

Lemma not_In_without t l : NoDup l -> ~ In t (without t l).
Proof.
  induction l as [|y r IH]; simpl; [tauto|].
  intros H. apply NoDup_cons_iff in H. destruct H as [Hy Hr].
  destruct (Nat.eqb_spec y t) as [->|Hne]; [exact Hy|].
  simpl. intros [H|H]; [contradiction | now apply IH].
Qed.

Lemma startNext_all s :
  running (startNext N s) ++ queue (startNext N s) = running s ++ queue s.
Proof.
  unfold startNext. destruct (queue s) as [|t q] eqn:E; [now rewrite E|].
  destruct (List.length (running s) <? N)%nat; [|now rewrite E].
  simpl. now rewrite <- app_assoc.
Qed.

Lemma startNext_fresh s : fresh (startNext N s) = fresh s.
Proof.
  unfold startNext. destruct (queue s); [reflexivity|].
  now destruct (List.length (running s) <? N)%nat.
Qed.

Lemma LimiterInv_init : invariant N init.
Proof.
  unfold invariant, init. simpl.
  repeat split; [constructor | tauto | lia | congruence].
Qed.

Lemma LimiterInv_schedule s : invariant N s -> invariant N (schedule N s).
Proof.
  intros (Hnd & Hlt & Hle & Hfull). unfold invariant, schedule.
  rewrite startNext_all, startNext_fresh. cbn [running queue fresh].
  rewrite app_assoc. split; [|split].
  - apply NoDup_rev in Hnd. rewrite <- (rev_involutive (_ ++ [_])).
    apply NoDup_rev. rewrite rev_app_distr. simpl.
    apply NoDup_cons; [|exact Hnd].
    rewrite <- in_rev. intros Hin. apply Hlt in Hin. lia.
  - intros t Hin. apply in_app_iff in Hin. destruct Hin as [Hin|[<-|[]]];
      [apply Hlt in Hin; lia | lia].
  - unfold startNext. cbn [running queue fresh].
    destruct (queue s) as [|q0 q] eqn:Eq; cbn [app].
    + destruct (Nat.ltb_spec (List.length (running s)) N);
        cbn [running queue]; [rewrite length_app; simpl|]; split;
        try lia; try congruence.
    + assert (List.length (running s) = N) as Hn by (apply Hfull; congruence).
      rewrite Hn, Nat.ltb_irrefl. cbn [running queue]. split; [lia|tauto].
Qed.

Lemma LimiterInv_settle s t o :
  invariant N s -> In t (running s) -> invariant N (settle N t o s).
Proof.
  intros (Hnd & Hlt & Hle & Hfull) Hin. unfold invariant, settle.
  rewrite startNext_all, startNext_fresh. cbn [running queue fresh].
  pose proof (length_without t (running s) Hin) as Hlen.
  split; [now apply NoDup_without_app|]. split.
  - intros x Hx. apply Hlt. apply in_app_iff in Hx. apply in_app_iff.
    destruct Hx as [Hx|Hx]; [left; now apply In_without with t | now right].
  - unfold startNext. cbn [running queue fresh].
    destruct (queue s) as [|q0 q] eqn:Eq.
    + cbn [running queue]. split; [lia|congruence].
    + assert (List.length (running s) = N) as Hn by (apply Hfull; congruence).
      destruct (Nat.ltb_spec (List.length (without t (running s))) N);
        [|lia].
      cbn [running queue]. rewrite length_app. simpl. split; intros; lia.
Qed.

Lemma LimiterInv_reachable s : reachable N s -> invariant N s.
Proof.
  induction 1 as [|s e s' Hr IH Hstep]; [apply LimiterInv_init|].
  destruct Hstep; [now apply LimiterInv_schedule | now apply LimiterInv_settle].
Qed.

End LimiterFacts.

Section LimiterSteps.

Import Limiter.

Variable N : nat.

(** A task leaves the queue only when a running task settles, and then it is
    the one that waited longest. *)
Lemma queued_starts_on_settle s e s' t :
  invariant N s -> step N s e s' ->
  In t (queue s) -> In t (running s') ->
  hd_error (queue s) = Some t /\
  exists t0 o, e = Settle t0 o /\ In t0 (running s) /\ ~ In t0 (running s').
Proof.
  intros (Hnd & Hlt & Hle & Hfull) Hstep Hq Hr.
  assert (Hn : List.length (running s) = N).
  { apply Hfull. intros E. now rewrite E in Hq. }
  assert (Hdisj : forall x, In x (running s) -> ~ In x (queue s)).
  { intros x Hx Hxq. apply in_split in Hx. destruct Hx as (l1 & l2 & E).
    rewrite E, <- app_assoc in Hnd. simpl in Hnd.
    apply NoDup_remove_2 in Hnd. apply Hnd.
    rewrite !in_app_iff. tauto. }
  destruct Hstep as [s | s t0 o Hin].
  - exfalso. unfold schedule, startNext in Hr. cbn [running queue fresh] in Hr.
    destruct (queue s ++ [fresh s]) as [|q0 q]; [now apply (Hdisj t)|].
    rewrite Hn, Nat.ltb_irrefl in Hr. now apply (Hdisj t).
  - pose proof (length_without t0 (running s) Hin) as Hlen.
    assert (Hnr : NoDup (running s)) by now apply NoDup_app_remove_r in Hnd.
    unfold settle, startNext in *. cbn [running queue fresh] in *.
    destruct (queue s) as [|q0 q] eqn:Eq; [contradiction|].
    destruct (Nat.ltb_spec (List.length (without t0 (running s))) N); [|lia].
    cbn [running] in *. apply in_app_iff in Hr.
    destruct Hr as [Hr|[->|[]]].
    + exfalso. apply In_without in Hr. now apply (Hdisj t Hr).
    + split; [reflexivity|]. exists t0, o. repeat split; [exact Hin|].
      intros H'. apply in_app_iff in H'. destruct H' as [H'|[->|[]]].
      * now apply (not_In_without t0 (running s)).
      * apply (Hdisj _ Hin). now left.
Qed.

(** Settling releases the slot of the task, whether it completed or failed:
    the task is gone and one piece of work less is in the limiter. *)
Lemma settle_releases s t o :
  invariant N s -> In t (running s) ->
  settle N t o s = settle N t Completed s /\
  ~ In t (running (settle N t o s) ++ queue (settle N t o s)) /\
  S (List.length (running (settle N t o s) ++ queue (settle N t o s)))
  = List.length (running s ++ queue s).
Proof.
  intros (Hnd & _) Hin. split; [reflexivity|].
  unfold settle. rewrite startNext_all. cbn [running queue].
  split.
  - intros H. apply in_app_iff in H. destruct H as [H|H].
    + apply NoDup_app_remove_r in Hnd. now apply (not_In_without t (running s)).
    + apply in_split in Hin. destruct Hin as (l1 & l2 & E).
      rewrite E, <- app_assoc in Hnd. simpl in Hnd.
      apply NoDup_remove_2 in Hnd. apply Hnd. rewrite !in_app_iff. tauto.
  - rewrite !length_app, <- (length_without t (running s) Hin). reflexivity.
Qed.

Lemma invariant_drains s : (0 < N)%nat -> invariant N s -> drains N s.
Proof.
  intros HN.
  remember (List.length (running s ++ queue s)) as m eqn:Hm.
  revert s Hm. induction m as [|m IH]; intros s Hm Hinv.
  - symmetry in Hm. apply length_zero_iff_nil in Hm.
    apply app_eq_nil in Hm. destruct Hm. now apply drains_idle.
  - destruct (running s) as [|t r] eqn:Er.
    + exfalso. destruct Hinv as (_ & _ & _ & Hfull). rewrite Er in *.
      simpl in *. destruct (queue s); [discriminate|].
      assert (0%nat = N) by (apply Hfull; congruence). lia.
    + assert (Hin : In t (running s)) by (rewrite Er; now left).
      apply drains_settle with t Completed; [exact Hin|].
      apply IH; [|now apply LimiterInv_settle].
      destruct (settle_releases s t Completed Hinv Hin) as (_ & _ & Hlen).
      rewrite <- Er in Hm. lia.
Qed.

End LimiterSteps.

(** C4: with limiter capacity N, in every state the limiter can reach at
    most N tasks are running, and a task waits only while all N slots are
    taken; a waiting task starts only in the step in which a running task
    settles; settling releases the slot in the same way whether the task
    completed or failed, and a limiter of capacity at least one can always
    be drained, so no slot is lost.  In the handler, every call of the
    document transformer and of the renderer happens while the request
    holds a slot, and the slot is returned on every path. *)
Theorem C4_concurrency_bound N s :
  Limiter.reachable N s ->
  (List.length (Limiter.running s) <= N)%nat /\
  (Limiter.queue s <> [] -> List.length (Limiter.running s) = N) /\
  (forall e s' t,
     Limiter.step N s e s' ->
     In t (Limiter.queue s) -> In t (Limiter.running s') ->
     exists t0 o, e = Limiter.Settle t0 o /\ In t0 (Limiter.running s) /\
                  ~ In t0 (Limiter.running s')) /\
  (forall t o,
     In t (Limiter.running s) ->
     Limiter.settle N t o s = Limiter.settle N t Limiter.Completed s /\
     ~ In t (Limiter.running (Limiter.settle N t o s)) /\
     Limiter.reachable N (Limiter.settle N t o s)) /\
  ((0 < N)%nat -> Limiter.drains N s) /\
  (forall cfg w req, insideLimiter false (calls cfg w req) = true).
Proof.
  intros Hreach. pose proof (LimiterInv_reachable N s Hreach) as Hinv.
  split; [apply Hinv|]. split; [apply Hinv|]. split; [|split; [|split]].
  - intros e s' t Hstep Hq Hr.
    now destruct (queued_starts_on_settle N s e s' t Hinv Hstep Hq Hr).
  - intros t o Hin.
    destruct (settle_releases N s t o Hinv Hin) as (Heq & Hgone & _).
    split; [exact Heq|]. split.
    + intros H. apply Hgone. apply in_app_iff. now left.
    + apply Limiter.reach_step with s (Limiter.Settle t o); [exact Hreach|].
      now constructor.
  - intros HN. now apply invariant_drains.
  - intros cfg w req. unfold calls.
    destruct (run_outcome cfg w req); reflexivity.
Qed.

Lemma C4_witness :
  Limiter.running Limiter.threeArrivals = [0; 1]%nat /\
  Limiter.queue Limiter.threeArrivals = [2%nat] /\
  (List.length (Limiter.running Limiter.threeArrivals) <= 2)%nat /\
  Limiter.drains 2 Limiter.threeArrivals.
Proof.
  split; [reflexivity|]. split; [reflexivity|].
  assert (Hreach : Limiter.reachable 2 Limiter.threeArrivals).
  { unfold Limiter.threeArrivals.
    repeat (eapply Limiter.reach_step; [|apply Limiter.step_schedule]).
    apply Limiter.reach_init. }
  destruct (C4_concurrency_bound 2 Limiter.threeArrivals Hreach)
    as (Hle & _ & _ & _ & Hdrain & _).
  split; [exact Hle | apply Hdrain; lia].
Defined.

(* ================================================================== *)
(** * Further properties of the code *)

(** ** The formatting pass: what it bounds and what it keeps *)




(** Every column of a formatted workbook has a width between 8 and 50,
    however long or short its cells are. *)
Theorem column_width_within_limits fontSize landscape wb wb' :
  eachSheet fontSize landscape wb = Ok wb' ->
  Forall (fun col => exists n, width col = Some n /\ 8 <= n <= 50)
         (columnsOf wb').
Proof.
  intros H. rewrite (eachSheet_columns _ _ _ _ H).
  apply Forall_forall. intros col' Hin. apply in_map_iff in Hin.
  destruct Hin as (col & <- & _).
  eexists. split; [reflexivity|]. unfold minMax. lia.
Qed.

Lemma column_width_within_limits_witness :
  eachSheet 9 (str "true") companyBook = Ok companyBookFormatted /\
  Forall (fun col => exists n, width col = Some n /\ 8 <= n <= 50)
         (columnsOf companyBookFormatted).
Proof.
  split; [reflexivity|].
  apply (column_width_within_limits 9 (str "true") companyBook
           companyBookFormatted eq_refl).
Defined.

Lemma eachSheet_length fontSize landscape wb wb' :
  eachSheet fontSize landscape wb = Ok wb' ->
  List.length wb' = List.length wb.
Proof.
  revert wb'. induction wb as [|ws rest IH]; intros wb' H.
  - injection H as <-. reflexivity.
  - apply eachSheet_cons_inv in H. destruct H as (ws' & rest' & -> & _ & Hr).
    simpl. now rewrite (IH _ Hr).
Qed.

Lemma eachSheet_setups fontSize landscape wb wb' :
  eachSheet fontSize landscape wb = Ok wb' ->
  List.map pageSetup wb' =
  List.map (fun ws => formatPageSetup landscape (pageSetup ws)) wb.
Proof.
  revert wb'. induction wb as [|ws rest IH]; intros wb' H.
  - injection H as <-. reflexivity.
  - apply eachSheet_cons_inv in H. destruct H as (ws' & rest' & -> & Hs & Hr).
    simpl. rewrite (IH _ Hr). f_equal.
    unfold formatSheet in Hs. destruct (columns ws); [|discriminate].
    now injection Hs as <-.
Qed.

(** The formatting pass changes fonts, widths and page setup only: the
    formatted workbook has the same sheets, columns and cells, every cell
    keeps its value and the other properties of its font, and every sheet
    keeps the other properties of its page setup. *)
Theorem formatting_keeps_content fontSize landscape wb wb' :
  eachSheet fontSize landscape wb = Ok wb' ->
  List.length wb' = List.length wb /\
  List.map (fun col => List.length (cells col)) (columnsOf wb') =
  List.map (fun col => List.length (cells col)) (columnsOf wb) /\
  List.map value (cellsOf wb') = List.map value (cellsOf wb) /\
  List.map fontRestOf (cellsOf wb') = List.map fontRestOf (cellsOf wb) /\
  List.map (fun ws => setupRest (pageSetup ws)) wb' =
  List.map (fun ws => setupRest (pageSetup ws)) wb.
Proof.
  intros H. split; [now apply eachSheet_length with fontSize landscape|].
  split; [|split; [|split]].
  - rewrite (eachSheet_columns _ _ _ _ H), map_map.
    apply map_ext. intros col. unfold formatColumn. cbn [cells].
    apply length_map.
  - rewrite (eachSheet_cells _ _ _ _ H), map_map. reflexivity.
  - rewrite (eachSheet_cells _ _ _ _ H), map_map. apply map_ext.
    intros c. unfold fontRestOf, setFont. cbn [font fontRest]. reflexivity.
  - rewrite <- (map_map pageSetup setupRest wb'),
      (eachSheet_setups _ _ _ _ H), map_map.
    reflexivity.
Qed.

Lemma formatting_keeps_content_witness :
  eachSheet 9 (str "true") companyBook = Ok companyBookFormatted /\
  List.map value (cellsOf companyBookFormatted)
  = List.map value (cellsOf companyBook).
Proof.
  split; [reflexivity|].
  apply (formatting_keeps_content 9 (str "true") companyBook
           companyBookFormatted eq_refl).
Defined.

(** ** What the renderer is given *)

Lemma formatPageSetup_print landscape p :
  isPrintSetup landscape (formatPageSetup landscape p).
Proof. unfold isPrintSetup, formatPageSetup. simpl. tauto. Qed.

(** Whenever the renderer is called, the posted file is the serialisation
    of the formatted workbook (not the upload) under the fixed name
    export.xlsx (not the upload's name), every sheet of that workbook
    is set to fit one page wide on A4 (paper size 9) with unconstrained
    height, and its orientation agrees with the [landscape] field posted
    next to it: landscape exactly when that field is the string "true". *)
Theorem renderer_gets_formatted_workbook cfg w req form :
  In (CFetch form) (calls cfg w req) ->
  exists f wb wb',
    file req = Some f /\
    xlsx_load w (buffer f) = Ok wb /\
    formatted cfg req wb = Ok wb' /\
    xlsx_writeBuffer w wb' = Ok (files form) /\
    files_filename form = "export.xlsx"%string /\
    Forall (fun ws => isPrintSetup (form_landscape form) (pageSetup ws)) wb'.
Proof.
  intros Hin.
  destruct (fetch_form_unique _ _ _ _ Hin)
    as (f & wb & wb' & b & _ & Hf & _ & Hl & Hfmt & Hw & ->).
  exists f, wb, wb'. repeat split; try assumption.
  cbn [form_landscape formFor].
  unfold formatted in Hfmt. apply Forall_forall. intros ws Hws.
  apply (in_map pageSetup) in Hws.
  rewrite (eachSheet_setups _ _ _ _ Hfmt) in Hws.
  apply in_map_iff in Hws. destruct Hws as (ws0 & <- & _).
  apply formatPageSetup_print.
Qed.

Lemma renderer_gets_formatted_workbook_witness :
  exists f wb wb',
    file (upload XLSX_MAGIC "test.xlsx") = Some f /\
    xlsx_load (world 100 helloBook (reply 200 "%PDF")) (buffer f) = Ok wb /\
    formatted cfg0 (upload XLSX_MAGIC "test.xlsx") wb = Ok wb' /\
    xlsx_writeBuffer (world 100 helloBook (reply 200 "%PDF")) wb'
    = Ok (files (formFor (upload XLSX_MAGIC "test.xlsx") XLSX_MAGIC)) /\
    files_filename (formFor (upload XLSX_MAGIC "test.xlsx") XLSX_MAGIC)
    = "export.xlsx"%string /\
    Forall (fun ws =>
              isPrintSetup
                (form_landscape (formFor (upload XLSX_MAGIC "test.xlsx")
                                         XLSX_MAGIC))
                (pageSetup ws)) wb'.
Proof.
  apply (renderer_gets_formatted_workbook cfg0
           (world 100 helloBook (reply 200 "%PDF"))
           (upload XLSX_MAGIC "test.xlsx")).
  simpl. tauto.
Defined.

(** The handler works in landscape exactly when the [landscape] field is
    absent, empty or the string "true"; any other value, "TRUE" or "1"
    included, gives portrait, and the renderer is handed the same value.
    The [singlePageSheets] field is passed on likewise, "true" when absent
    or empty. *)
Theorem landscape_only_for_true cfg w req form :
  In (CFetch form) (calls cfg w req) ->
  form_landscape form = str_or (body_landscape req) (str "true") /\
  form_singlePageSheets form
  = str_or (body_singlePageSheets req) (str "true") /\
  (jsstring_eqb (form_landscape form) (str "true") = true <->
   body_landscape req = None \/ body_landscape req = Some [] \/
   body_landscape req = Some (str "true")).
Proof.
  intros Hin.
  destruct (fetch_form_unique _ _ _ _ Hin)
    as (f & wb & wb' & b & _ & _ & _ & _ & _ & _ & ->).
  cbn [form_landscape form_singlePageSheets formFor].
  split; [reflexivity|]. split; [reflexivity|].
  rewrite jsstring_eqb_eq. unfold str_or.
  destruct (body_landscape req) as [[|c s]|].
  - split; [tauto | reflexivity].
  - split.
    + intros ->. right; right. reflexivity.
    + intros [H | [H | H]]; [discriminate | discriminate | congruence].
  - split; [tauto | reflexivity].
Qed.

Lemma landscape_only_for_true_witness :
  form_landscape (formFor (upload XLSX_MAGIC "test.xlsx") XLSX_MAGIC)
  = str "true".
Proof.
  apply (landscape_only_for_true cfg0
           (world 100 helloBook (reply 200 "%PDF"))
           (upload XLSX_MAGIC "test.xlsx")
           (formFor (upload XLSX_MAGIC "test.xlsx") XLSX_MAGIC)).
  simpl. tauto.
Defined.

(** ** The handler as a whole *)

Lemma overloaded_threshold cfg w :
  overloaded cfg w = true <-> memoryLimitMB cfg * 1048576 + 524288 <= rss w.
Proof.
  unfold overloaded, getMemoryUsageMB. rewrite Z.gtb_ltb, Z.ltb_lt.
  split; intros H.
  - assert (memoryLimitMB cfg + 1 <= (rss w + 524288) / 1048576) as H1 by lia.
    pose proof (Z.mul_div_le (rss w + 524288) 1048576 ltac:(lia)). nia.
  - assert (memoryLimitMB cfg + 1 <= (rss w + 524288) / 1048576)
      by (apply Z.div_le_lower_bound; lia).
    lia.
Qed.

(** The memory guard rounds the resident set to whole megabytes, so it
    sheds load from half a megabyte above the limit: a request is answered
    503 "under heavy load" exactly when rss is at least limit MiB + 512 KiB,
    and then the handler does nothing but measure and answer, whatever the
    request carries. *)
Theorem overload_shedding cfg w req :
  (response cfg w req = Some rejectOverload <->
   memoryLimitMB cfg * 1048576 + 524288 <= rss w) /\
  (memoryLimitMB cfg * 1048576 + 524288 <= rss w ->
   calls cfg w req = [CGetMemoryUsage; CSend]).
Proof.
  rewrite <- overloaded_threshold. split.
  - split.
    + intros Hr. destruct (overloaded cfg w) eqn:Hmem; [reflexivity|].
      exfalso. revert Hr. outcome_cases cfg w req; try congruence;
        try discriminate;
        try (destruct (errorResponse_cases e) as [-> | [-> | ->]]; discriminate).
      unfold jsonResponse. destruct (bodyless (upstreamStatus r)); discriminate.
    + intros Hmem. unfold response. now rewrite run_overloaded.
  - intros Hmem. unfold calls. now rewrite run_overloaded.
Qed.

Lemma overload_shedding_witness :
  calls cfg0 (world 513 [] (reply 200 "%PDF")) noUpload
  = [CGetMemoryUsage; CSend].
Proof.
  apply (overload_shedding cfg0 (world 513 [] (reply 200 "%PDF")) noUpload).
  cbv. discriminate.
Defined.

(** [isValidXlsx] accepts exactly the buffers that begin with the four
    signature bytes; nothing after them is looked at. *)
Theorem signature_is_a_prefix_test b :
  isValidXlsx (Some b) = true <-> exists rest, b = XLSX_MAGIC ++ rest.
Proof.
  rewrite isValidXlsx_iff. split.
  - intros H. exists (skipn 4 b). rewrite <- H. symmetry. apply firstn_skipn.
  - intros (rest & ->). reflexivity.
Qed.

(** The renderer is called exactly when the guard admits the request, the
    upload carries the signature, and the workbook loads, formats and
    serialises without error; it is then called with the form built from
    the serialised bytes. *)
Theorem renderer_called_iff cfg w req form :
  In (CFetch form) (calls cfg w req) <->
  exists f wb wb' b,
    overloaded cfg w = false /\ file req = Some f /\
    isValidXlsx (buffer f) = true /\
    xlsx_load w (buffer f) = Ok wb /\ formatted cfg req wb = Ok wb' /\
    xlsx_writeBuffer w wb' = Ok b /\ form = formFor req b.
Proof.
  split; [apply fetch_form_unique|].
  intros (f & wb & wb' & b & Hmem & Hf & Hv & Hl & Hfmt & Hw & ->).
  outcome_cases cfg w req; try congruence;
    repeat match goal with
           | H1 : ?x = _, H2 : ?x = _ |- _ =>
               rewrite H1 in H2; inversion H2; subst; clear H2
           end;
    try congruence; simpl; tauto.
Qed.

(** Every error body comes from the handler's own seven messages: neither
    the renderer's error text nor the message of a caught exception ever
    reaches the client. *)
Theorem error_messages_are_fixed cfg w req r message :
  response cfg w req = Some r ->
  body r = Json message ->
  In message errorMessages.
Proof.
  intros Hr Hbody. revert Hr Hbody.
  outcome_cases cfg w req; intros [= <-];
    try (destruct (errorResponse_cases e) as [-> | [-> | ->]]);
    cbn [body rejectOverload rejectNoFile rejectInvalid pdfResponse
         jsonResponse];
    try match goal with
        | |- context [bodyless ?s] => destruct (bodyless s)
        end;
    intros [= <-] || discriminate; simpl; tauto.
Qed.

Lemma error_messages_are_fixed_witness :
  In "PDF conversion failed"%string errorMessages.
Proof.
  apply (error_messages_are_fixed cfg0
           (world 100 helloBook (reply 500 "stack trace of the renderer"))
           (upload XLSX_MAGIC "test.xlsx")
           {| status := 502; body := Json "PDF conversion failed" |});
    reflexivity.
Defined.

(** A status of 500 or more in the handler's answer is always one of 500,
    502, 503 and 504: a 5xx code of the renderer is never relayed as it
    is. *)
Theorem only_own_5xx_statuses cfg w req r :
  response cfg w req = Some r ->
  500 <= status r ->
  In (status r) [500; 502; 503; 504].
Proof.
  intros Hr. revert Hr.
  outcome_cases cfg w req; intros [= <-];
    try (destruct (errorResponse_cases e) as [-> | [-> | ->]]);
    cbn [status rejectOverload rejectNoFile rejectInvalid pdfResponse
         jsonResponse];
    try (simpl; lia || tauto).
  unfold upstreamStatus.
  match goal with
  | |- context [?s >=? 500] => destruct (Z.geb_spec s 500)
  end.
  - simpl. tauto.
  - intros. lia.
Qed.

Lemma only_own_5xx_statuses_witness :
  In 502 [500; 502; 503; 504].
Proof.
  apply (only_own_5xx_statuses cfg0
           (world 100 helloBook (reply 503 "Service Unavailable"))
           (upload XLSX_MAGIC "test.xlsx")
           {| status := 502; body := Json "PDF conversion failed" |});
    [reflexivity | simpl; lia].
Defined.

(** A PDF is sent only when the renderer answered with a success status and
    its body was read: the answer is then 200, of type application/pdf, the
    body is the renderer's bytes unchanged and Content-Length is their
    number. *)
Theorem pdf_only_from_renderer cfg w req r headers data :
  response cfg w req = Some r ->
  body r = Pdf headers data ->
  status r = 200 /\
  contentType headers = "application/pdf"%string /\
  contentLength headers = List.length data /\
  exists form answer,
    In (CFetch form) (calls cfg w req) /\
    fetch w form = Ok answer /\ ok answer = true /\
    resp_body answer = Ok data.
Proof.
  intros Hr Hbody. revert Hr Hbody.
  outcome_cases cfg w req; intros [= <-];
    try (destruct (errorResponse_cases e) as [-> | [-> | ->]]);
    cbn [body rejectOverload rejectNoFile rejectInvalid pdfResponse
         jsonResponse];
    try match goal with
        | |- context [bodyless ?s] => destruct (bodyless s)
        end;
    try discriminate.
  intros [= <- <-]. cbn [status contentType contentLength].
  repeat split.
  match goal with
  | H : fetch w (formFor req ?b) = Ok ?x |- _ => exists (formFor req b), x
  end.
  repeat split; try assumption.
  simpl. tauto.
Qed.

Lemma pdf_only_from_renderer_witness :
  exists form answer,
    In (CFetch form)
       (calls cfg0 (world 100 helloBook (reply 200 "%PDF"))
              (upload XLSX_MAGIC "report.xlsx")) /\
    fetch (world 100 helloBook (reply 200 "%PDF")) form = Ok answer /\
    ok answer = true /\ resp_body answer = Ok (list_byte_of_string "%PDF").
Proof.
  apply (pdf_only_from_renderer cfg0 (world 100 helloBook (reply 200 "%PDF"))
           (upload XLSX_MAGIC "report.xlsx")
           (pdfResponse (str "report.pdf") (list_byte_of_string "%PDF"))
           {| contentType := "application/pdf";
              contentDisposition :=
                str "attachment; filename=" ++ 34%N :: str "report.pdf" ++ [34%N];
              contentLength := 4 |}
           (list_byte_of_string "%PDF"));
    reflexivity.
Defined.

(** One request costs the renderer at most one call (there is no retry),
    the abort timer is cleared as often as it is set, whether the call
    succeeds or throws, and the handler sends exactly one response. *)
Theorem one_call_one_timer_one_response cfg w req :
  (countCalls isFetch (calls cfg w req) <= 1)%nat /\
  countCalls isSetTimeout (calls cfg w req)
  = countCalls isFetch (calls cfg w req) /\
  countCalls isClearTimeout (calls cfg w req)
  = countCalls isSetTimeout (calls cfg w req) /\
  countCalls isSend (calls cfg w req) = 1%nat /\
  last (calls cfg w req) CGetMemoryUsage = CSend.
Proof.
  outcome_cases cfg w req; cbv; repeat split; lia.
Qed.

(** When loading, formatting or serialising the workbook throws, the
    renderer is not called and the client gets the answer of the catch
    block for that error: 500 "Internal server error" unless the error is
    named AbortError or carries the code LIMIT_FILE_SIZE. *)
Theorem failure_before_renderer cfg w req f e :
  overloaded cfg w = false ->
  file req = Some f ->
  isValidXlsx (buffer f) = true ->
  (xlsx_load w (buffer f) = Throw e \/
   exists wb, xlsx_load w (buffer f) = Ok wb /\
     (formatted cfg req wb = Throw e \/
      exists wb', formatted cfg req wb = Ok wb' /\
                  xlsx_writeBuffer w wb' = Throw e)) ->
  response cfg w req = Some (errorResponse e) /\
  countCalls isFetch (calls cfg w req) = 0%nat /\
  (err_name e <> "AbortError"%string ->
   err_code e <> Some "LIMIT_FILE_SIZE"%string ->
   errorResponse e =
     {| status := 500; body := Json "Internal server error" |}).
Proof.
  intros Hmem Hf Hv Hfail. split; [|split].
  - revert Hfail. outcome_cases cfg w req; try congruence;
      intros [Hl | (wb1 & Hl & [Hfm | (wb1' & Hfm & Hwr)])];
      congruence.
  - revert Hfail. outcome_cases cfg w req; try congruence;
      intros [Hl | (wb1 & Hl & [Hfm | (wb1' & Hfm & Hwr)])];
      try reflexivity; congruence.
  - intros Hname Hcode. unfold errorResponse.
    destruct (String.eqb_spec (err_name e) "AbortError"); [contradiction|].
    destruct (err_code e) as [c|]; [|reflexivity].
    destruct (String.eqb_spec c "LIMIT_FILE_SIZE"); [|reflexivity].
    subst. now elim Hcode.
Qed.

Lemma failure_before_renderer_witness :
  response cfg0
           {| rss := 0; xlsx_load := fun _ => Throw TypeError;
              xlsx_writeBuffer := fun _ => Ok [];
              fetch := fun _ => Throw FetchError |}
           (upload XLSX_MAGIC "broken.xlsx")
  = Some {| status := 500; body := Json "Internal server error" |}.
Proof.
  apply (failure_before_renderer cfg0
           {| rss := 0; xlsx_load := fun _ => Throw TypeError;
              xlsx_writeBuffer := fun _ => Ok [];
              fetch := fun _ => Throw FetchError |}
           (upload XLSX_MAGIC "broken.xlsx")
           {| buffer := Some XLSX_MAGIC;
              originalname := Some (str "broken.xlsx") |}
           TypeError);
    try reflexivity.
  left. reflexivity.
Defined.

(** ** File names *)

Lemma isSafeChar_sanitized c : isSafeChar (if isSafeChar c then c else 95%N) = true.
Proof. destruct (isSafeChar c) eqn:E; [exact E | reflexivity]. Qed.

(** [sanitizeFilename] works code unit by code unit: the result has the
    length of the name, a safe character stays where it is and any other
    becomes an underscore; so a name of safe characters, and only such a
    name, is left as it is, and sanitising twice changes nothing more. *)
Theorem sanitizeFilename_pointwise s :
  List.length (sanitizeFilename s) = List.length s /\
  (forall i c, nth_error s i = Some c ->
               nth_error (sanitizeFilename s) i
               = Some (if isSafeChar c then c else 95%N)) /\
  (sanitizeFilename s = s <-> forallb isSafeChar s = true) /\
  sanitizeFilename (sanitizeFilename s) = sanitizeFilename s.
Proof.
  unfold sanitizeFilename. split; [apply length_map|]. split; [|split].
  - intros i c H. now rewrite nth_error_map, H.
  - induction s as [|c s IH]; [simpl; tauto|].
    simpl. rewrite andb_true_iff, <- IH. split.
    + intros [= Hc Hs]. split; [|exact Hs].
      destruct (isSafeChar c) eqn:E; [reflexivity|]. now rewrite <- Hc in E.
    + intros [-> ->]. reflexivity.
  - rewrite map_map. apply map_ext. intros c.
    now rewrite isSafeChar_sanitized.
Qed.

Lemma jsstring_eqb_map_ext (g h : code_unit -> code_unit) u :
  (forall c p, In p u -> cu_eqb (g c) p = cu_eqb (h c) p) ->
  forall t, jsstring_eqb (List.map g t) u = jsstring_eqb (List.map h t) u.
Proof.
  induction u as [|p u IH]; intros Hext [|c t]; simpl; try reflexivity.
  rewrite (Hext c p) by now left.
  rewrite IH; [reflexivity|]. intros c' p' Hin. apply Hext. now right.
Qed.

(** An unsafe character is none of the characters of ".xlsx", in either
    letter case. *)
Lemma foldCase_sanitized c p :
  In p (str ".xlsx") ->
  cu_eqb (foldCase (if isSafeChar c then c else 95%N)) p = cu_eqb (foldCase c) p.
Proof.
  intros Hp. destruct (isSafeChar c) eqn:E; [reflexivity|].
  assert (Hne : foldCase c <> p).
  { intros Heq. revert E. unfold isSafeChar, in_range.
    assert (Hc : c = p \/ c = (p - 32)%N).
    { unfold foldCase, in_range in Heq.
      destruct (N.leb_spec 65 c); destruct (N.leb_spec c 90);
        cbn [andb] in Heq; simpl in Hp; lia. }
    simpl in Hp.
    destruct Hc as [-> | ->];
      destruct Hp as [<- | [<- | [<- | [<- | [<- | []]]]]]; discriminate. }
  unfold cu_eqb. apply N.eqb_neq in Hne. rewrite Hne.
  simpl in Hp. apply N.eqb_neq.
  destruct Hp as [<- | [<- | [<- | [<- | [<- | []]]]]]; discriminate.
Qed.

Lemma isXlsxSuffix_sanitized t :
  isXlsxSuffix (sanitizeFilename t) = isXlsxSuffix t.
Proof.
  unfold isXlsxSuffix, sanitizeFilename. rewrite map_map.
  apply (jsstring_eqb_map_ext
           (fun c => foldCase (if isSafeChar c then c else 95%N)) foldCase).
  intros c p Hp. now apply foldCase_sanitized.
Qed.

(** Sanitising and swapping the extension can be done in either order: the
    characters of ".xlsx" are safe, so sanitising neither makes nor breaks
    the ending the handler looks for. *)
Theorem sanitize_commutes_with_extension name :
  sanitizeFilename (replaceXlsxExt name)
  = replaceXlsxExt (sanitizeFilename name).
Proof.
  unfold replaceXlsxExt.
  assert (Hlen : List.length (sanitizeFilename name) = List.length name)
    by apply length_map.
  rewrite Hlen.
  assert (Hskip : skipn (List.length name - 5) (sanitizeFilename name)
                  = sanitizeFilename (skipn (List.length name - 5) name))
    by (unfold sanitizeFilename; apply skipn_map).
  rewrite Hskip, isXlsxSuffix_sanitized.
  destruct (isXlsxSuffix (skipn (List.length name - 5) name)); [|reflexivity].
  rewrite sanitizeFilename_app. f_equal.
  unfold sanitizeFilename. symmetry. apply firstn_map.
Qed.

Lemma pdfName_nonempty originalname : pdfName originalname <> [].
Proof.
  unfold pdfName. intros H. apply (f_equal (@List.length code_unit)) in H.
  unfold sanitizeFilename in H. rewrite length_map in H.
  assert (Hx : str_or originalname (str "export.xlsx") <> []).
  { unfold str_or. destruct originalname as [[|c s]|]; discriminate. }
  revert H Hx. generalize (str_or originalname (str "export.xlsx")).
  intros s H Hx. unfold replaceXlsxExt in H.
  destruct (isXlsxSuffix (skipn (List.length s - 5) s)).
  - rewrite length_app in H. simpl in H. lia.
  - destruct s; [contradiction | discriminate].
Qed.

Lemma safe_is_not_special c :
  isSafeChar c = true -> ~ In c [10; 13; 34; 47; 59; 92]%N.
Proof.
  intros Hs Hin. simpl in Hin.
  destruct Hin as [<- | [<- | [<- | [<- | [<- | [<- | []]]]]]]; discriminate.
Qed.

(** The Content-Disposition header of every PDF answer is
    attachment; filename= followed by a name between two double quotes,
    where the name is the sanitised download name: it is not empty and
    holds no double quote, semicolon, slash, backslash or line break, so
    nothing in an upload's name can end the quoted value or start another
    header. *)
Theorem download_header_is_well_formed cfg w req r headers data :
  response cfg w req = Some r ->
  body r = Pdf headers data ->
  exists f,
    file req = Some f /\
    contentDisposition headers
    = str "attachment; filename="
      ++ 34%N :: pdfName (originalname f) ++ [34%N] /\
    pdfName (originalname f) <> [] /\
    forall c, In c (pdfName (originalname f)) ->
              isSafeChar c = true /\ ~ In c [10; 13; 34; 47; 59; 92]%N.
Proof.
  intros Hr Hbody. revert Hr Hbody.
  outcome_cases cfg w req; intros [= <-];
    try (destruct (errorResponse_cases e) as [-> | [-> | ->]]);
    cbn [body rejectOverload rejectNoFile rejectInvalid pdfResponse
         jsonResponse];
    try match goal with
        | |- context [bodyless ?s] => destruct (bodyless s)
        end;
    try discriminate.
  intros [= <- <-]. exists f. split; [assumption|].
  split; [reflexivity|]. split; [apply pdfName_nonempty|].
  intros c Hc.
  assert (Hs : isSafeChar c = true).
  { pose proof (sanitizeFilename_safe
                  (replaceXlsxExt
                     (str_or (originalname f) (str "export.xlsx")))) as Hall.
    rewrite forallb_forall in Hall. now apply Hall. }
  split; [exact Hs | now apply safe_is_not_special].
Qed.

Lemma download_header_is_well_formed_witness :
  exists f,
    file (upload XLSX_MAGIC "my report (2024).xlsx") = Some f /\
    str "attachment; filename="
    ++ 34%N :: str "my_report__2024_.pdf" ++ [34%N]
    = str "attachment; filename="
      ++ 34%N :: pdfName (originalname f) ++ [34%N] /\
    pdfName (originalname f) <> [] /\
    forall c, In c (pdfName (originalname f)) ->
              isSafeChar c = true /\ ~ In c [10; 13; 34; 47; 59; 92]%N.
Proof.
  apply (download_header_is_well_formed cfg0
           (world 100 helloBook (reply 200 "%PDF"))
           (upload XLSX_MAGIC "my report (2024).xlsx")
           (pdfResponse (str "my_report__2024_.pdf")
                        (list_byte_of_string "%PDF"))
           {| contentType := "application/pdf";
              contentDisposition :=
                str "attachment; filename="
                ++ 34%N :: str "my_report__2024_.pdf" ++ [34%N];
              contentLength := 4 |}
           (list_byte_of_string "%PDF"));
    reflexivity.
Defined.

(** ** The middleware *)

Lemma bufferFrom_nonempty c r : bufferFrom (c :: r) <> [].
Proof.
  simpl. destruct (c <? 128)%N; [discriminate|].
  destruct (c <? 2048)%N; [discriminate|].
  destruct (isHighSurrogate c).
  - destruct r as [|d r']; [discriminate|].
    destruct (isLowSurrogate d); discriminate.
  - destruct (isLowSurrogate c); discriminate.
Qed.

Lemma byteOf_inj a b :
  (a < 256)%N -> (b < 256)%N -> byteOf a = byteOf b -> a = b.
Proof.
  intros Ha Hb. unfold byteOf.
  destruct (Byte.of_N a) as [x|] eqn:Ea.
  2:{ apply Byte.of_N_None_iff in Ea. lia. }
  destruct (Byte.of_N b) as [y|] eqn:Eb.
  2:{ apply Byte.of_N_None_iff in Eb. lia. }
  intros ->. apply Byte.to_of_N in Ea, Eb. congruence.
Qed.

Lemma bufferFrom_ascii_inj a b :
  isAscii a = true -> isAscii b = true ->
  bufferFrom a = bufferFrom b -> a = b.
Proof.
  unfold isAscii. revert b. induction a as [|x a IH]; intros [|y b] Ha Hb H.
  - reflexivity.
  - symmetry in H. now apply bufferFrom_nonempty in H.
  - now apply bufferFrom_nonempty in H.
  - simpl in Ha, Hb. apply andb_true_iff in Ha, Hb.
    destruct Ha as [Hx Ha], Hb as [Hy Hb].
    simpl in H. rewrite Hx, Hy in H. injection H as Hxy Hrest.
    apply N.ltb_lt in Hx, Hy.
    f_equal; [apply byteOf_inj; lia || assumption | now apply IH].
Qed.

(** The API key check never throws: [timingSafeEqual] is only reached with
    buffers of equal length.  Without a configured key every request goes
    on; with one, a request goes on exactly when the UTF-8 bytes of its
    x-api-key header are those of the key, and is answered 401 otherwise,
    in particular when the header is missing.  For an ASCII key and header
    that is string equality. *)
Theorem api_key_gate apiKey header :
  exists next,
    apiKeyMiddleware apiKey header = Ok next /\
    (next = Continue <->
     apiKey = [] \/ bufferFrom (str_or header []) = bufferFrom apiKey) /\
    (next <> Continue -> next = Answer unauthorized) /\
    (apiKey <> [] -> str_or header [] = [] -> next = Answer unauthorized) /\
    (apiKey <> [] -> isAscii apiKey = true ->
     isAscii (str_or header []) = true ->
     (next = Continue <-> header = Some apiKey)).
Proof.
  destruct apiKey as [|k key].
  { exists Continue. simpl. repeat split; try tauto; congruence. }
  set (apiKey := k :: key).
  assert (Hgate :
    exists next,
      apiKeyMiddleware apiKey header = Ok next /\
      (next = Continue <-> bufferFrom (str_or header []) = bufferFrom apiKey) /\
      (next <> Continue -> next = Answer unauthorized)).
  { unfold apiKeyMiddleware, apiKey, timingSafeEqual.
    fold apiKey.
    destruct (Nat.eqb_spec (List.length (bufferFrom (str_or header [])))
                           (List.length (bufferFrom apiKey))) as [Hlen|Hlen];
      cbn [negb].
    - destruct (bytes_equals (bufferFrom (str_or header []))
                             (bufferFrom apiKey)) eqn:E; cbn [negb].
      + exists Continue. apply bytes_equals_eq in E. repeat split; tauto.
      + exists (Answer unauthorized). repeat split; try discriminate; try tauto.
        intros H. apply bytes_equals_eq in H. congruence.
    - exists (Answer unauthorized). repeat split; try discriminate; try tauto.
      intros H. now rewrite H in Hlen. }
  destruct Hgate as (next & Hrun & Hiff & Hother).
  exists next. split; [exact Hrun|]. split; [|split; [exact Hother|split]].
  - rewrite Hiff. split; [tauto | intros [H|H]; [discriminate | exact H]].
  - intros _ Hempty. apply Hother. rewrite Hiff, Hempty.
    intros H. symmetry in H. now apply bufferFrom_nonempty in H.
  - intros _ Hk Hh. rewrite Hiff. split.
    + intros H. apply bufferFrom_ascii_inj in H; try assumption.
      unfold str_or in H. destruct header as [[|c s]|]; try discriminate.
      now rewrite H.
    + intros ->. reflexivity.
Qed.

Lemma api_key_gate_witness :
  exists next,
    apiKeyMiddleware (str "test-secret-key") None = Ok next /\
    next = Answer unauthorized.
Proof.
  destruct (api_key_gate (str "test-secret-key") None)
    as (next & Hrun & _ & _ & Hmissing & _).
  exists next. split; [exact Hrun|].
  apply Hmissing; [discriminate | reflexivity].
Defined.

Example test_api_key_wrong :
  apiKeyMiddleware (str "test-secret-key") (Some (str "wrong-key"))
  = Ok (Answer unauthorized).
Proof. reflexivity. Qed.

Example test_api_key_matches :
  apiKeyMiddleware (str "test-secret-key") (Some (str "test-secret-key"))
  = Ok Continue.
Proof. reflexivity. Qed.

Example test_api_key_not_set :
  apiKeyMiddleware [] None = Ok Continue.
Proof. reflexivity. Qed.

Section KeepsResponse.

Variable r0 : Response.

Lemma keeps_ret {A} (a : A) : keepsResponse r0 (ret a).
Proof. intros st H. simpl. tauto. Qed.

Lemma keeps_bind {A B} (m : M A) (k : A -> M B) :
  keepsResponse r0 m -> (forall a, keepsResponse r0 (k a)) ->
  keepsResponse r0 (bind m k).
Proof.
  intros Hm Hk st H. unfold bind.
  destruct (Hm st H) as [Hs Hc]. destruct (m st) as [[a|e] st']; simpl in *.
  - destruct (Hk a st' Hs) as [Hs' Hc']. split; [exact Hs' | congruence].
  - tauto.
Qed.

Lemma keeps_log c : isSend c = false -> keepsResponse r0 (log c).
Proof.
  intros Hc st H. unfold log, countCalls. simpl.
  rewrite filter_app. simpl. rewrite Hc, app_nil_r. tauto.
Qed.

Lemma keeps_call {A} c (r : Result A) :
  isSend c = false -> keepsResponse r0 (call c r).
Proof.
  intros Hc. unfold call. apply keeps_bind; [now apply keeps_log|].
  intros _ st H. simpl. tauto.
Qed.

Lemma keeps_send r : keepsResponse r0 (send r).
Proof. intros st H. unfold send. rewrite H. simpl. tauto. Qed.

Lemma keeps_json s error : keepsResponse r0 (json s error).
Proof.
  unfold json. destruct (sendable s); [apply keeps_send|].
  intros st H. simpl. tauto.
Qed.

Lemma keeps_try_catch {A} (m : M A) handler :
  keepsResponse r0 m -> (forall e, keepsResponse r0 (handler e)) ->
  keepsResponse r0 (try_catch m handler).
Proof.
  intros Hm Hh st H. unfold try_catch.
  destruct (Hm st H) as [Hs Hc]. destruct (m st) as [[a|e] st']; simpl in *.
  - tauto.
  - destruct (Hh e st' Hs) as [Hs' Hc']. split; [exact Hs' | congruence].
Qed.

Lemma keeps_try_finally {A} (m : M A) cleanup :
  keepsResponse r0 m -> keepsResponse r0 cleanup ->
  keepsResponse r0 (try_finally m cleanup).
Proof.
  intros Hm Hc st H. unfold try_finally.
  destruct (Hm st H) as [Hs Hn]. destruct (m st) as [res st']. simpl in *.
  destruct (Hc st' Hs) as [Hs' Hn'].
  destruct (cleanup st') as [[u|e] st'']; simpl in *; split; congruence.
Qed.

Lemma keeps_headersSent : keepsResponse r0 headersSent.
Proof. intros st H. simpl. tauto. Qed.

Lemma keeps_convert cfg w req : keepsResponse r0 (convert cfg w req).
Proof.
  unfold convert. apply keeps_try_catch.
  - apply keeps_bind; [now apply keeps_log|]. intros _.
    destruct (getMemoryUsageMB w >? memoryLimitMB cfg); [apply keeps_json|].
    apply keeps_bind; [now apply keeps_log|]. intros _.
    destruct (file req) as [f|]; [|apply keeps_json].
    apply keeps_bind; [now apply keeps_log|]. intros _.
    destruct (negb (isValidXlsx (buffer f))); [apply keeps_json|].
    apply keeps_bind.
    + unfold limit. apply keeps_bind; [now apply keeps_log|]. intros _.
      apply keeps_try_finally; [|now apply keeps_log].
      unfold convertTask.
      apply keeps_bind; [now apply keeps_call|]. intros wb.
      apply keeps_bind; [now apply keeps_call|]. intros wb'.
      apply keeps_bind; [now apply keeps_call|]. intros b.
      apply keeps_bind; [now apply keeps_log|]. intros _.
      apply keeps_try_finally; [|now apply keeps_log].
      apply keeps_bind; [now apply keeps_call|]. intros r.
      destruct (negb (ok r)).
      * apply keeps_bind; [now apply keeps_call|]. intros errText. apply keeps_ret.
      * apply keeps_bind; [now apply keeps_call|]. intros pdf. apply keeps_ret.
    + intros [s m|data]; [apply keeps_json | apply keeps_send].
  - intros e. unfold onError.
    destruct (String.eqb (err_name e) "AbortError"); [apply keeps_json|].
    destruct (match err_code e with
              | Some c => String.eqb c "LIMIT_FILE_SIZE"
              | None => false
              end); [apply keeps_json|].
    apply keeps_bind; [apply keeps_headersSent|].
    intros [|]; [apply keeps_ret | apply keeps_json].
Qed.

End KeepsResponse.

(** The request timeout and the handler never both answer.  A timeout that
    fires after the handler has answered changes nothing; one that fires on
    an unanswered request sends 408; and once any response has been sent,
    the handler leaves it in place and sends nothing more on any of its
    paths. *)
Theorem first_response_wins cfg w req :
  snd (onRequestTimeout (run cfg w req)) = run cfg w req /\
  sent (snd (onRequestTimeout initial)) = Some timedOut /\
  (forall r0 st,
     sent st = Some r0 ->
     sent (snd (convert cfg w req st)) = Some r0 /\
     countCalls isSend (trace (snd (convert cfg w req st)))
     = countCalls isSend (trace st)).
Proof.
  split; [|split].
  - destruct (response_total cfg w req) as (r & Hr). unfold response in Hr.
    unfold onRequestTimeout, bind, headersSent. rewrite Hr. reflexivity.
  - reflexivity.
  - intros r0 st H. now apply keeps_convert.
Qed.

Lemma first_response_wins_witness :
  sent (snd (convert cfg0 (world 100 helloBook (reply 200 "%PDF"))
                     (upload XLSX_MAGIC "test.xlsx")
                     (snd (onRequestTimeout initial))))
  = Some timedOut.
Proof.
  apply (first_response_wins cfg0 (world 100 helloBook (reply 200 "%PDF"))
           (upload XLSX_MAGIC "test.xlsx")).
  reflexivity.
Defined.

(** ** Memory readings and the /health route *)

(** [getMemoryUsageMB] rounds to the nearest megabyte, halves upwards: the
    reading is within half a megabyte of the resident set size. *)
Theorem memory_reading_is_rounded w :
  getMemoryUsageMB w * 1048576 - 524288 <= rss w
  < getMemoryUsageMB w * 1048576 + 524288.
Proof.
  unfold getMemoryUsageMB.
  pose proof (Z.mul_div_le (rss w + 524288) 1048576 ltac:(lia)).
  pose proof (Z.mul_succ_div_gt (rss w + 524288) 1048576 ltac:(lia)).
  lia.
Qed.

Lemma startsWith_nil s : startsWith s [] = true.
Proof. now destruct s. Qed.

Lemma startsWith_app s t p :
  (List.length p <= List.length s)%nat ->
  startsWith (s ++ t) p = startsWith s p.
Proof.
  revert s. induction p as [|x p IH]; intros s Hlen;
    [now rewrite !startsWith_nil|].
  destruct s as [|c s]; simpl in *; [lia|].
  rewrite IH by lia. reflexivity.
Qed.

Lemma includes_false_cons c s p :
  includes (c :: s) p = false ->
  startsWith (c :: s) p = false /\ includes s p = false.
Proof.
  cbn [includes]. intros H. apply orb_false_iff in H. exact H.
Qed.

Lemma gotenbergBase_no_forms url :
  includes url (str "/forms/") = false -> Health.gotenbergBase url = url.
Proof.
  induction url as [|c r IH]; intros H; [reflexivity|].
  apply includes_false_cons in H. destruct H as [Hs Hr].
  cbn [Health.gotenbergBase]. rewrite Hs. cbn [andb]. now rewrite IH.
Qed.

Lemma gotenbergBase_match url :
  startsWith url (str "/forms/") = true ->
  existsb Health.isLineTerminator (skipn 7 url) = false ->
  Health.gotenbergBase url = [].
Proof.
  intros Hs Hl. destruct url; cbn [Health.gotenbergBase];
    rewrite Hs, Hl; reflexivity.
Qed.

Lemma gotenbergBase_cut base rest :
  includes (base ++ str "/forms") (str "/forms/") = false ->
  existsb Health.isLineTerminator rest = false ->
  Health.gotenbergBase (base ++ str "/forms/" ++ rest) = base.
Proof.
  intros Hbase Hrest. induction base as [|c b IH].
  - apply gotenbergBase_match; [simpl; apply startsWith_nil | exact Hrest].
  - change ((c :: b) ++ str "/forms") with (c :: (b ++ str "/forms")) in Hbase.
    apply includes_false_cons in Hbase. destruct Hbase as [Hs Hb].
    change ((c :: b) ++ str "/forms/" ++ rest)
      with (c :: (b ++ str "/forms/" ++ rest)).
    cbn [Health.gotenbergBase].
    assert (Hstart :
      startsWith (c :: b ++ str "/forms/" ++ rest) (str "/forms/") = false).
    { change (str "/forms/" ++ rest) with (str "/forms" ++ 47%N :: rest).
      rewrite app_assoc.
      change (c :: (b ++ str "/forms") ++ 47%N :: rest)
        with ((c :: b ++ str "/forms") ++ 47%N :: rest).
      rewrite startsWith_app; [exact Hs|].
      simpl. rewrite length_app. simpl. lia. }
    rewrite Hstart. cbn [andb]. now rewrite (IH Hb).
Qed.

(** The health probe goes to the renderer's own /health path: the
    conversion URL is cut at its first "/forms/" and "/health" is appended.
    A URL without "/forms/" is kept whole, so the probe then goes to a path
    below the conversion endpoint. *)
Theorem health_probe_url :
  (forall base rest,
     includes (base ++ str "/forms") (str "/forms/") = false ->
     existsb Health.isLineTerminator rest = false ->
     Health.healthUrl (base ++ str "/forms/" ++ rest) = base ++ str "/health") /\
  (forall url,
     includes url (str "/forms/") = false ->
     Health.healthUrl url = url ++ str "/health") /\
  Health.healthUrl (str "http://localhost:3000/forms/libreoffice/convert")
  = str "http://localhost:3000/health".
Proof.
  unfold Health.healthUrl. split; [|split].
  - intros base rest Hb Hr. now rewrite gotenbergBase_cut.
  - intros url H. now rewrite gotenbergBase_no_forms.
  - reflexivity.
Qed.

Lemma health_probe_url_witness :
  Health.healthUrl (str "http://gotenberg:3000/forms/chromium/convert/url")
  = str "http://gotenberg:3000" ++ str "/health" /\
  Health.healthUrl (str "http://gotenberg:3000/convert")
  = str "http://gotenberg:3000/convert" ++ str "/health".
Proof.
  destruct health_probe_url as (Hcut & Hkeep & _). split.
  - apply (Hcut (str "http://gotenberg:3000") (str "chromium/convert/url"));
      reflexivity.
  - apply (Hkeep (str "http://gotenberg:3000/convert")). reflexivity.
Defined.

(** The /health route always answers, and its fields agree with each other:
    the answer is 200 exactly when the status is "ok", which is exactly when
    the probe of the renderer resolved with a success status (then
    gotenberg is "reachable"); otherwise it is 503 with status "degraded",
    gotenberg being "unhealthy" when the probe resolved with another status
    and "unreachable" when it threw or was aborted.  The memory figure is
    the rounded reading the conversion guard uses. *)
Theorem health_report_is_consistent gotenbergUrl w upSince probe :
  let reply := Health.health gotenbergUrl (rss w) upSince probe in
  let answer := probe (Health.healthUrl gotenbergUrl) in
  Health.memoryMB (Health.report reply) = getMemoryUsageMB w /\
  Health.uptime (Health.report reply) = upSince /\
  ((Health.statusCode reply = 200 /\
    Health.status (Health.report reply) = "ok"%string /\
    Health.gotenberg (Health.report reply) = Some "reachable"%string /\
    exists resp, answer = Ok resp /\ ok resp = true)
   \/
   (Health.statusCode reply = 503 /\
    Health.status (Health.report reply) = "degraded"%string /\
    ((Health.gotenberg (Health.report reply) = Some "unhealthy"%string /\
      exists resp, answer = Ok resp /\ ok resp = false)
     \/
     (Health.gotenberg (Health.report reply) = Some "unreachable"%string /\
      exists e, answer = Throw e)))).
Proof.
  cbv zeta. unfold Health.health, getMemoryUsageMB.
  destruct (probe (Health.healthUrl gotenbergUrl)) as [resp|e].
  - destruct (ok resp) eqn:Hok; cbn.
    + split; [reflexivity|]. split; [reflexivity|]. left.
      repeat split. now exists resp.
    + split; [reflexivity|]. split; [reflexivity|]. right.
      repeat split. left. split; [reflexivity | now exists resp].
  - cbn. split; [reflexivity|]. split; [reflexivity|]. right.
    repeat split. right. split; [reflexivity | now exists e].
Qed.

(** ** Sheets without columns, and the settings *)

Lemma eachSheet_throws fontSize landscape wb :
  (exists ws, In ws wb /\ columns ws = None) <->
  eachSheet fontSize landscape wb = Throw TypeError.
Proof.
  induction wb as [|ws rest IH]; simpl.
  - split; [intros (ws & [] & _) | discriminate].
  - unfold formatSheet at 1. destruct (columns ws) as [cols|] eqn:Hc.
    + destruct (eachSheet fontSize landscape rest) as [rest'|e] eqn:Hr.
      * split; [|discriminate]. intros (ws0 & [<- | Hin] & Hnone);
          [congruence|].
        assert (Hex : exists ws, In ws rest /\ columns ws = None)
          by now exists ws0.
        apply IH in Hex. discriminate.
      * rewrite <- IH. split.
        -- intros (ws0 & [<- | Hin] & Hnone); [congruence|]. now exists ws0.
        -- intros (ws0 & Hin & Hnone). exists ws0. tauto.
    + split; [reflexivity|]. intros _. exists ws. tauto.
Qed.

(** The formatting pass fails exactly when some sheet of the workbook has
    no columns ([worksheet.columns] is null, so [forEach] throws a
    TypeError); the conversion is then answered 500 "Internal server error"
    without calling the renderer, however many well-formed sheets the
    workbook has. *)
Theorem sheet_without_columns_fails cfg w req f wb :
  overloaded cfg w = false ->
  file req = Some f ->
  isValidXlsx (buffer f) = true ->
  xlsx_load w (buffer f) = Ok wb ->
  ((exists ws, In ws wb /\ columns ws = None) <->
   formatted cfg req wb = Throw TypeError) /\
  ((exists ws, In ws wb /\ columns ws = None) ->
   response cfg w req =
     Some {| status := 500; body := Json "Internal server error" |} /\
   countCalls isFetch (calls cfg w req) = 0%nat).
Proof.
  intros Hmem Hf Hv Hl. split; [apply eachSheet_throws|].
  intros Hex. apply (eachSheet_throws (requestFontSize cfg (body_fontSize req))
                       (str_or (body_landscape req) (str "true"))) in Hex.
  fold (formatted cfg req wb) in Hex.
  revert Hex. outcome_cases cfg w req; try congruence; intros Hex;
    repeat match goal with
           | H1 : ?x = _, H2 : ?x = _ |- _ =>
               rewrite H1 in H2; inversion H2; subst; clear H2
           end;
    try congruence.
  split; reflexivity.
Qed.

Lemma sheet_without_columns_fails_witness :
  response cfg0 (world 100 bookWithBlankSheet (reply 200 "%PDF"))
           (upload XLSX_MAGIC "test.xlsx")
  = Some {| status := 500; body := Json "Internal server error" |} /\
  countCalls isFetch
    (calls cfg0 (world 100 bookWithBlankSheet (reply 200 "%PDF"))
           (upload XLSX_MAGIC "test.xlsx")) = 0%nat.
Proof.
  apply (sheet_without_columns_fails cfg0
           (world 100 bookWithBlankSheet (reply 200 "%PDF"))
           (upload XLSX_MAGIC "test.xlsx")
           {| buffer := Some XLSX_MAGIC;
              originalname := Some (str "test.xlsx") |}
           bookWithBlankSheet);
    try reflexivity.
  exists {| columns := None; pageSetup := plainSetup |}.
  split; [simpl; tauto | reflexivity].
Defined.

(** A numeric setting is never zero: a variable that is unset, empty, not a
    number or zero gives the built-in default; any other leading integer of
    magnitude up to 2^53, negative ones included, is taken as it is (beyond
    that a double no longer holds every integer, and the setting is the
    nearest one it holds).  So a limit cannot be switched off by setting it
    to 0. *)
Theorem settings_fall_back e :
  defaultFontSize (config e) <> 0 /\
  memoryLimitMB (config e) <> 0 /\
  concurrencyLimit (config e) <> 0 /\
  (forall v fallback n,
     parseInt v = Some n -> n <> 0 -> Z.abs n <= 2 ^ 53 ->
     envInt v fallback = n) /\
  (forall v fallback,
     parseInt v = None \/ parseInt v = Some 0 -> envInt v fallback = fallback) /\
  (forall fallback,
     envInt None fallback = fallback /\ envInt (Some []) fallback = fallback /\
     envInt (Some (str "0")) fallback = fallback /\
     envInt (Some (str "-1")) fallback = -1) /\
  config emptyEnviron
  = {| defaultFontSize := 9; memoryLimitMB := 512; concurrencyLimit := 5 |}.
Proof.
  assert (Hnz : forall v d, d <> 0 -> envInt v d <> 0).
  { intros v d Hd. unfold envInt, num_or.
    destruct (parseInt v) as [n|]; [|exact Hd].
    destruct (Z.eqb_spec n 0); [exact Hd | assumption]. }
  unfold config. cbn [defaultFontSize memoryLimitMB concurrencyLimit].
  split; [apply Hnz; lia|]. split; [apply Hnz; lia|].
  split; [apply Hnz; lia|]. split; [|split; [|split]].
  - intros v fallback n Hn Hnz' _. unfold envInt, num_or. rewrite Hn.
    now destruct (Z.eqb_spec n 0).
  - intros v fallback H. unfold envInt.
    destruct H as [-> | ->]; reflexivity.
  - intros fallback. repeat split.
  - reflexivity.
Qed.

Lemma settings_fall_back_witness :
  envInt (Some (str "25 workers")) 5 = 25.
Proof.
  destruct (settings_fall_back emptyEnviron) as (_ & _ & _ & Htaken & _).
  apply (Htaken (Some (str "25 workers")) 5 25).
  - reflexivity.
  - discriminate.
  - cbv. discriminate.
Defined.
